(** * redux-websocket: action creators and the reconnecting socket manager

    A shallow embedding of
      - the two copies of the action-creator module
        (src/unnamed/part_000 and src/unnamed/part_002), and
      - the [ReduxWebSocket] class (src/src/ReduxWebSocket.ts),
    followed by the properties that the specification states about them. *)

From Stdlib Require Import ZArith List String Bool Sorted Lia.
From stdpp Require Import base list.
Import ListNotations.

Local Open Scope string_scope.
Local Open Scope list_scope.
Local Open Scope Z_scope.

(** ** JavaScript values *)

Module Js.

(** The fragment of JavaScript values that flows through the modelled code.
    Numbers are the integers the code handles (counts, close codes). *)
#[local] Unset Elimination Schemes.
Inductive Value :=
| Undefined
| Null
| Bool (b : bool)
| Num (n : Z)
| Str (s : string)
| Date (ms : Z)
| Arr (items : list Value)
| Obj (fields : list (string * Value))
| Err (name message : string).
#[local] Set Elimination Schemes.

(** [ToBoolean]: what [if (v)], [v || d] and [v ? a : b] test. *)
Definition truthy (v : Value) : bool :=
  match v with
  | Undefined | Null => false
  | Bool b => b
  | Num n => negb (n =? 0)
  | Str s => negb (String.eqb s "")
  | Date _ | Arr _ | Obj _ | Err _ _ => true
  end.

(** [v instanceof Error]. *)
Definition instanceofError (v : Value) : bool :=
  match v with Err _ _ => true | _ => false end.

(** Object literals keep insertion order; a later key overrides in place. *)
Fixpoint set (k : string) (v : Value) (o : list (string * Value))
  : list (string * Value) :=
  match o with
  | [] => [(k, v)]
  | (k', v') :: o' =>
      if String.eqb k k' then (k, v) :: o' else (k', v') :: set k v o'
  end.

(** [{ ...o, ...extra }]. *)
Definition spread (o extra : list (string * Value)) : list (string * Value) :=
  fold_left (fun acc kv => set (fst kv) (snd kv) acc) extra o.

(** Property read [o.k]; a missing property reads as [undefined]. *)
Fixpoint lookup (k : string) (o : list (string * Value)) : Value :=
  match o with
  | [] => Undefined
  | (k', v) :: o' => if String.eqb k k' then v else lookup k o'
  end.

(** Property read [v.k] of a value that has properties. On [null] and
    [undefined] JavaScript throws a TypeError instead; the creators below read
    properties only of arguments typed [Error] and [MessageEvent], which are
    never [null] or [undefined], and what is stated about those reads is
    stated for such arguments. *)
Definition get (k : string) (v : Value) : Value :=
  match v with
  | Obj fields => lookup k fields
  | Err name message =>
      if String.eqb k "name" then Str name
      else if String.eqb k "message" then Str message
      else Undefined
  | _ => Undefined
  end.

(** An optional string argument ([string | undefined]). *)
Definition ofOptString (p : option string) : Value :=
  match p with Some s => Str s | None => Undefined end.

(** An optional string placed in a template literal: [`${p}`]. *)
Definition template (p : option string) : string :=
  match p with Some s => s | None => "undefined" end.

(** [p || d] for an optional string [p] and a string [d]. *)
Definition orElse (p : option string) (d : string) : string :=
  match p with
  | Some s => if truthy (Str s) then s else d
  | None => d
  end.

End Js.

(** ** Constants of [./actionTypes]

    The module [./actionTypes] is not part of the sources at hand; the action
    creators are therefore stated over an arbitrary assignment of its twelve
    imported constants. *)

Record ActionTypes := {
  DEFAULT_PREFIX : string;
  WEBSOCKET_BROKEN : string;
  WEBSOCKET_BEGIN_RECONNECT : string;
  WEBSOCKET_RECONNECT_ATTEMPT : string;
  WEBSOCKET_RECONNECTED : string;
  WEBSOCKET_CLOSED : string;
  WEBSOCKET_CONNECT : string;
  WEBSOCKET_DISCONNECT : string;
  WEBSOCKET_ERROR : string;
  WEBSOCKET_MESSAGE : string;
  WEBSOCKET_OPEN : string;
  WEBSOCKET_SEND : string
}.

(** Modelled from the spec: the values of the [./actionTypes] constants. The
    specification lists the event names (CONNECT, DISCONNECT, SEND,
    BEGIN_RECONNECT, ...) and says the prefix defaults to a fixed constant,
    without giving its text; the package's name in upper case stands for it
    here, and the worked examples only need it to differ from the text
    [undefined]. *)
Definition specActionTypes : ActionTypes := {|
  DEFAULT_PREFIX := "REDUX_WEBSOCKET";
  WEBSOCKET_BROKEN := "BROKEN";
  WEBSOCKET_BEGIN_RECONNECT := "BEGIN_RECONNECT";
  WEBSOCKET_RECONNECT_ATTEMPT := "RECONNECT_ATTEMPT";
  WEBSOCKET_RECONNECTED := "RECONNECTED";
  WEBSOCKET_CLOSED := "CLOSED";
  WEBSOCKET_CONNECT := "CONNECT";
  WEBSOCKET_DISCONNECT := "DISCONNECT";
  WEBSOCKET_ERROR := "ERROR";
  WEBSOCKET_MESSAGE := "MESSAGE";
  WEBSOCKET_OPEN := "OPEN";
  WEBSOCKET_SEND := "SEND"
|}.

(** [BuiltAction<T>]: [error] and [payload] are keys that may be absent. *)
Module Built.
Record Action := {
  type : string;
  meta : list (string * Js.Value);
  error : option bool;
  payload : option Js.Value
}.
End Built.
Abbreviation BuiltAction := Built.Action.

(** The rest arguments of [connect]:
    [[] | [string] | [string[]] | [string[], string]]. *)
Inductive ConnectRestArgs :=
| NoRest
| WithPrefix (prefix : string)
| WithProtocols (protocols : list string)
| WithProtocolsAndPrefix (protocols : list string) (prefix : string).

Definition protocolsValue (ps : option (list string)) : Js.Value :=
  match ps with
  | Some l => Js.Arr (map Js.Str l)
  | None => Js.Undefined
  end.

(** ** The action creators of src/unnamed/part_000 *)

Module Actions000.
Section Creators.

Variable K : ActionTypes.
(** [Date.prototype.toJSON] and the clock read by [new Date()]. *)
Variable toJSON : Z -> string.
Variable now : Z.

Definition isProtocols (args : ConnectRestArgs) : bool :=
  match args with
  | WithProtocols _ | WithProtocolsAndPrefix _ _ => true
  | NoRest | WithPrefix _ => false
  end.

Definition args_length (args : ConnectRestArgs) : Z :=
  match args with
  | NoRest => 0
  | WithPrefix _ | WithProtocols _ => 1
  | WithProtocolsAndPrefix _ _ => 2
  end.

Definition buildAction (actionType : string) (string_timestamp : bool)
    (payload : Js.Value) (meta : option (list (string * Js.Value)))
  : BuiltAction :=
  let timestamp := Js.Date now in
  let timestamp :=
    if string_timestamp then Js.Str (toJSON now) else timestamp in
  let base_type := actionType in
  let base_meta :=
    Js.spread [("timestamp", timestamp)]
      (match meta with Some m => m | None => [] end) in
  let base_error :=
    if Js.instanceofError payload then Some true else None in
  if Js.truthy payload
  then {| Built.type := base_type; Built.meta := base_meta;
          Built.error := base_error; Built.payload := Some payload |}
  else {| Built.type := base_type; Built.meta := base_meta;
          Built.error := base_error; Built.payload := None |}.

Definition connect (url : string) (string_timestamp : bool)
    (args : ConnectRestArgs) : BuiltAction :=
  let prefix : option string := None in
  let protocols : option (list string) := None in
  let '(protocols, prefix) :=
    if args_length args =? 1 then
      if isProtocols args
      then match args with
           | WithProtocols ps => (Some ps, None)
           | _ => (protocols, prefix)
           end
      else match args with
           | WithPrefix p => (None, Some p)
           | _ => (protocols, prefix)
           end
    else (protocols, prefix) in
  let '(protocols, prefix) :=
    if args_length args =? 2 then
      match args with
      | WithProtocolsAndPrefix ps p => (Some ps, Some p)
      | _ => (protocols, prefix)
      end
    else (protocols, prefix) in
  buildAction
    (Js.orElse prefix (DEFAULT_PREFIX K) ++ "::" ++ WEBSOCKET_CONNECT K)
    string_timestamp
    (Js.Obj [("url", Js.Str url); ("protocols", protocolsValue protocols)])
    None.

Definition disconnect (string_timestamp : bool) (prefix : option string) :=
  buildAction
    (Js.orElse prefix (DEFAULT_PREFIX K) ++ "::" ++ WEBSOCKET_DISCONNECT K)
    string_timestamp Js.Undefined None.

Definition send (msg : Js.Value) (string_timestamp : bool)
    (prefix : option string) :=
  buildAction
    (Js.orElse prefix (DEFAULT_PREFIX K) ++ "::" ++ WEBSOCKET_SEND K)
    string_timestamp msg None.

Definition beginReconnect (string_timestamp : bool)
    (prefix : option string) :=
  buildAction
    (Js.template prefix ++ "::" ++ WEBSOCKET_BEGIN_RECONNECT K)
    string_timestamp Js.Undefined None.

Definition reconnectAttempt (count : Z) (string_timestamp : bool)
    (prefix : option string) :=
  buildAction
    (Js.template prefix ++ "::" ++ WEBSOCKET_RECONNECT_ATTEMPT K)
    string_timestamp (Js.Obj [("count", Js.Num count)]) None.

Definition reconnected (string_timestamp : bool) (prefix : option string) :=
  buildAction (Js.template prefix ++ "::" ++ WEBSOCKET_RECONNECTED K)
    string_timestamp Js.Undefined None.

Definition open (event : Js.Value) (string_timestamp : bool)
    (prefix : option string) :=
  buildAction (Js.template prefix ++ "::" ++ WEBSOCKET_OPEN K)
    string_timestamp event None.

Definition broken (string_timestamp : bool) (prefix : option string) :=
  buildAction (Js.template prefix ++ "::" ++ WEBSOCKET_BROKEN K)
    string_timestamp Js.Undefined None.

Definition closed (event : Js.Value) (string_timestamp : bool)
    (prefix : option string) :=
  buildAction (Js.template prefix ++ "::" ++ WEBSOCKET_CLOSED K)
    string_timestamp event None.

Definition message (event : Js.Value) (string_timestamp : bool)
    (prefix : option string) :=
  buildAction (Js.template prefix ++ "::" ++ WEBSOCKET_MESSAGE K)
    string_timestamp
    (Js.Obj [("event", event);
             ("message", Js.get "data" event);
             ("origin", Js.get "origin" event)])
    None.

Definition error (originalAction : Js.Value) (err : Js.Value)
    (string_timestamp : bool) (prefix : option string) :=
  buildAction (Js.template prefix ++ "::" ++ WEBSOCKET_ERROR K)
    string_timestamp err
    (Some [("message", Js.get "message" err);
           ("name", Js.get "name" err);
           ("originalAction", originalAction)]).

End Creators.
End Actions000.

(** ** The action creators of src/unnamed/part_002 *)

Module Actions002.
Section Creators.

Variable K : ActionTypes.
(** [Date.prototype.toJSON] and the clock read by [new Date()]. *)
Variable toJSON : Z -> string.
Variable now : Z.

Definition isProtocols (args : ConnectRestArgs) : bool :=
  match args with
  | WithProtocols _ | WithProtocolsAndPrefix _ _ => true
  | NoRest | WithPrefix _ => false
  end.

Definition args_length (args : ConnectRestArgs) : Z :=
  match args with
  | NoRest => 0
  | WithPrefix _ | WithProtocols _ => 1
  | WithProtocolsAndPrefix _ _ => 2
  end.

Definition buildAction (actionType : string) (stringTimestamp : bool)
    (payload : Js.Value) (meta : option (list (string * Js.Value)))
  : BuiltAction :=
  let timestamp := Js.Date now in
  let timestamp :=
    if stringTimestamp then Js.Str (toJSON now) else timestamp in
  let base_type := actionType in
  let base_meta :=
    Js.spread [("timestamp", timestamp)]
      (match meta with Some m => m | None => [] end) in
  let base_error :=
    if Js.instanceofError payload then Some true else None in
  if Js.truthy payload
  then {| Built.type := base_type; Built.meta := base_meta;
          Built.error := base_error; Built.payload := Some payload |}
  else {| Built.type := base_type; Built.meta := base_meta;
          Built.error := base_error; Built.payload := None |}.

Definition connect (url : string) (stringTimestamp : bool)
    (args : ConnectRestArgs) : BuiltAction :=
  let prefix : option string := None in
  let protocols : option (list string) := None in
  let '(protocols, prefix) :=
    if args_length args =? 1 then
      if isProtocols args
      then match args with
           | WithProtocols ps => (Some ps, None)
           | _ => (protocols, prefix)
           end
      else match args with
           | WithPrefix p => (None, Some p)
           | _ => (protocols, prefix)
           end
    else (protocols, prefix) in
  let '(protocols, prefix) :=
    if args_length args =? 2 then
      match args with
      | WithProtocolsAndPrefix ps p => (Some ps, Some p)
      | _ => (protocols, prefix)
      end
    else (protocols, prefix) in
  buildAction
    (Js.orElse prefix (DEFAULT_PREFIX K) ++ "::" ++ WEBSOCKET_CONNECT K)
    stringTimestamp
    (Js.Obj [("url", Js.Str url); ("protocols", protocolsValue protocols)])
    None.

Definition disconnect (stringTimestamp : bool) (prefix : option string) :=
  buildAction
    (Js.orElse prefix (DEFAULT_PREFIX K) ++ "::" ++ WEBSOCKET_DISCONNECT K)
    stringTimestamp Js.Undefined None.

Definition send (msg : Js.Value) (stringTimestamp : bool)
    (prefix : option string) :=
  buildAction
    (Js.orElse prefix (DEFAULT_PREFIX K) ++ "::" ++ WEBSOCKET_SEND K)
    stringTimestamp msg None.

Definition beginReconnect (stringTimestamp : bool)
    (prefix : option string) :=
  buildAction
    (Js.template prefix ++ "::" ++ WEBSOCKET_BEGIN_RECONNECT K)
    stringTimestamp Js.Undefined None.

Definition reconnectAttempt (count : Z) (stringTimestamp : bool)
    (prefix : option string) :=
  buildAction
    (Js.template prefix ++ "::" ++ WEBSOCKET_RECONNECT_ATTEMPT K)
    stringTimestamp (Js.Obj [("count", Js.Num count)]) None.

Definition reconnected (stringTimestamp : bool) (prefix : option string) :=
  buildAction (Js.template prefix ++ "::" ++ WEBSOCKET_RECONNECTED K)
    stringTimestamp Js.Undefined None.

Definition open (event : Js.Value) (stringTimestamp : bool)
    (prefix : option string) :=
  buildAction (Js.template prefix ++ "::" ++ WEBSOCKET_OPEN K)
    stringTimestamp event None.

Definition broken (stringTimestamp : bool) (prefix : option string) :=
  buildAction (Js.template prefix ++ "::" ++ WEBSOCKET_BROKEN K)
    stringTimestamp Js.Undefined None.

Definition closed (event : Js.Value) (stringTimestamp : bool)
    (prefix : option string) :=
  buildAction (Js.template prefix ++ "::" ++ WEBSOCKET_CLOSED K)
    stringTimestamp event None.

Definition message (event : Js.Value) (stringTimestamp : bool)
    (prefix : option string) :=
  buildAction (Js.template prefix ++ "::" ++ WEBSOCKET_MESSAGE K)
    stringTimestamp
    (Js.Obj [("event", event);
             ("message", Js.get "data" event);
             ("origin", Js.get "origin" event)])
    None.

Definition error (originalAction : Js.Value) (err : Js.Value)
    (stringTimestamp : bool) (prefix : option string) :=
  buildAction (Js.template prefix ++ "::" ++ WEBSOCKET_ERROR K)
    stringTimestamp err
    (Some [("message", Js.get "message" err);
           ("name", Js.get "name" err);
           ("originalAction", originalAction)]).

End Creators.
End Actions002.

(** ** The connection manager of src/src/ReduxWebSocket.ts *)

(** The [payload] of a connect action: [{ url, protocols }]. *)
Record ConnectPayload := {
  url : string;
  protocols : option (list string)
}.

(** The fields of a native [CloseEvent] that the code can read. *)
Record CloseEvent := {
  code : Z;
  reason : string;
  wasClean : bool
}.

(** A [WebSocket] object is identified by the order of its construction. *)
Definition WebSocket := nat.

(** [WebSocket.readyState]. *)
Inductive ReadyState := CONNECTING | OPEN | CLOSING | CLOSED.

(** *** The retry scheduler *)

Module Retry.

(** Modelled from the spec: the backoff policy parameters, "min delay, max
    delay, forever flag", and the maximum attempt count that matters when
    [forever] is false. The constructor of [ReduxWebSocket] passes [forever],
    [maxTimeout] and [minTimeout] and leaves the budget out. *)
Record OperationOptions := {
  forever : bool;
  maxTimeout : Z;
  minTimeout : Z;
  retries : option Z
}.

(** Modelled from the spec: the scheduler's [state], "idle before first
    attempt, attempting while a connect callback is outstanding or waiting on
    backoff, stopped once an attempt is acknowledged as successful, abandoned
    once retry policy exhausts". *)
Inductive State := idle | attempting | stopped | abandoned.

(** Modelled from the spec: [retry.RetryOperation], the scheduler object of
    the [retry] package, whose code is not among the sources. Section 3 of
    the specification gives its data ([attemptCount], [state], the backoff
    parameters and the [forever] flag); [fn] is the connect callback handed
    to [attempt] (always the closure over [reliablyConnect] and the connect
    payload, so the payload stands for it), and the two flags say whether
    the backoff timer and the per-attempt timeout are pending. Delays are
    not measured: a pending timer fires as an input of its own. *)
Record Operation := {
  options : OperationOptions;
  attemptCount : Z;
  state : State;
  fn : option ConnectPayload;
  retryTimer : bool;
  attemptTimer : bool
}.

(** Modelled from the spec: [retry.operation(options)] builds an idle
    scheduler with no attempt made. *)
Definition operation (o : OperationOptions) : Operation :=
  {| options := o; attemptCount := 0; state := idle; fn := None;
     retryTimer := false; attemptTimer := false |}.

(** Modelled from the spec: [reset()] "clears attempt count and state back
    to idle" and cancels what is pending. *)
Definition reset (r : Operation) : Operation :=
  {| options := options r; attemptCount := 0; state := idle; fn := fn r;
     retryTimer := false; attemptTimer := false |}.

(** Modelled from the spec: [stop()] "marks the cycle as successfully
    concluded; cancels any pending timer". *)
Definition stop (r : Operation) : Operation :=
  {| options := options r; attemptCount := attemptCount r; state := stopped;
     fn := fn r; retryTimer := false; attemptTimer := false |}.

(** Modelled from the spec: the bookkeeping of [attempt(connectFn, ...)]:
    "transitions to attempting, increments attempt count to 1" and starts
    the timeout. The immediate call of [connectFn] is made by the caller of
    this function, [retrier_attempt] below. *)
Definition attempt (f : ConnectPayload) (r : Operation) : Operation :=
  {| options := options r; attemptCount := 1; state := attempting;
     fn := Some f; retryTimer := false; attemptTimer := true |}.

(** Modelled from the spec: whether the policy allows one more attempt.
    "forever=true meaning no attempt-count ceiling"; otherwise, with a maximum
    attempt count N, the first N consecutive failures are retried and the next
    one is not (without a configured budget nothing is left to use). *)
Definition allows (r : Operation) : bool :=
  forever (options r)
  || match retries (options r) with
     | Some n => attemptCount r <=? n
     | None => false
     end.

(** Modelled from the spec: [retry(reason)] returns [true] "if another
    attempt will be scheduled (increments attempt count ... and schedules
    connectFn again after that delay)", [false] when the budget is
    exhausted; after [stop()] (and after abandonment) it is a no-op, which
    schedules nothing. After the [reset()] that follows a successful open the
    scheduler is idle, and a failure then starts retrying again (the scenario
    connect, open, native close, open again of the specification). *)
Definition retry (reason : Js.Value) (r : Operation) : bool * Operation :=
  match state r with
  | stopped | abandoned => (false, r)
  | idle | attempting =>
      if allows r
      then (true,
            {| options := options r; attemptCount := attemptCount r + 1;
               state := attempting; fn := fn r; retryTimer := true;
               attemptTimer := attemptTimer r |})
      else (false,
            {| options := options r; attemptCount := attemptCount r;
               state := abandoned; fn := fn r; retryTimer := false;
               attemptTimer := attemptTimer r |})
  end.

(** Modelled from the spec: [attempts()] reads the attempt count, 1 during
    the first attempt ("current attempt number"). *)
Definition attempts (r : Operation) : Z := attemptCount r.

(** Modelled from the spec: the backoff timer fires; the scheduled attempt
    starts with its own timeout. The call of [connectFn] is made by
    [onRetryTimer] below. *)
Definition fire (r : Operation) : Operation :=
  {| options := options r; attemptCount := attemptCount r; state := state r;
     fn := fn r; retryTimer := false; attemptTimer := true |}.

(** Modelled from the spec: the per-attempt timeout fires once. *)
Definition expire (r : Operation) : Operation :=
  {| options := options r; attemptCount := attemptCount r; state := state r;
     fn := fn r; retryTimer := retryTimer r; attemptTimer := false |}.

End Retry.

(** *** State of the manager and of its surroundings *)

Record ReduxWebSocketOptions := {
  prefix : string;
  reconnectInterval : Z;
  reconnectOnClose : bool;
  (** [onOpen?]: the hook is foreign code, known here by a name. *)
  onOpen : option string;
  serializer : option (Js.Value -> string)
}.

(** The fields of a [ReduxWebSocket] instance. *)
Record ReduxWebSocket := {
  options : ReduxWebSocketOptions;
  websocket : option WebSocket;
  reconnectCount : Z;
  hasOpened : bool;
  retrier : Retry.Operation
}.

(** The instance together with the [WebSocket] objects constructed so far. *)
Record World := {
  this : ReduxWebSocket;
  sockets : list ReadyState
}.

(** The calls of the creators imported from [./actions], as the class makes
    them. That module exports [reconnectAbandoned] and takes the prefix as
    last and only extra argument, so it is neither of the two copies above;
    a dispatched action is recorded as the call that builds it. *)
Inductive Notification :=
| beginReconnect (prefix : string)
| reconnectAttempt (count : Z) (prefix : string)
| reconnected (prefix : string)
| reconnectAbandoned (prefix : string)
| open (event : Js.Value) (prefix : string)
| broken (prefix : string)
| closed (event : CloseEvent) (prefix : string)
| message (event : Js.Value) (prefix : string)
| error (originalAction : Js.Value) (err : Js.Value) (prefix : string).

(** What a method does to the outside, and its writes to the two mutable
    fields, in program order. *)
Inductive Effect :=
| ConsoleLog (text : string)
| Dispatch (action : Notification)
| NewWebSocket (sock : WebSocket) (url : string)
    (protocols : option (list string))
| SocketClose (sock : WebSocket) (code : Z) (reason : string)
| SocketSend (sock : WebSocket) (data : string)
| InvokeOnOpen (hook : string) (sock : WebSocket)
| Retrier_reset
| Retrier_stop
| Retrier_attempt (timeout : Z)
| Retrier_retry (err : Js.Value)
| Assign_websocket (value : option WebSocket)
| Assign_hasOpened (value : bool).

(** *** A monad for the methods: state, effect log and [throw] *)

Inductive Completion (A : Type) :=
| Normal (a : A)
| Throw (e : Js.Value).
Arguments Normal {A} a.
Arguments Throw {A} e.

Definition M (A : Type) : Type :=
  World -> Completion A * World * list Effect.

Definition ret {A} (a : A) : M A := fun w => (Normal a, w, []).

Definition bind {A B} (m : M A) (k : A -> M B) : M B :=
  fun w =>
    match m w with
    | (Normal a, w1, l1) =>
        match k a w1 with
        | (c, w2, l2) => (c, w2, l1 ++ l2)
        end
    | (Throw e, w1, l1) => (Throw e, w1, l1)
    end.

Definition throw {A} (e : Js.Value) : M A := fun w => (Throw e, w, []).

Definition emit (e : Effect) : M unit := fun w => (Normal tt, w, [e]).

Definition gets {A} (f : ReduxWebSocket -> A) : M A :=
  fun w => (Normal (f (this w)), w, []).

Definition modify (f : ReduxWebSocket -> ReduxWebSocket) : M unit :=
  fun w => (Normal tt, {| this := f (this w); sockets := sockets w |}, []).

Notation "x <- m ;; k" := (bind m (fun x => k))
  (at level 100, m at next level, right associativity).
Notation "m ;; k" := (bind m (fun _ => k))
  (at level 100, right associativity).

Definition completion {A} (r : Completion A * World * list Effect) :=
  fst (fst r).
Definition world {A} (r : Completion A * World * list Effect) : World :=
  snd (fst r).
Definition effects {A} (r : Completion A * World * list Effect)
  : list Effect := snd r.

(** *** Field updates and the calls out of the class *)

Definition with_websocket (v : option WebSocket) (m : ReduxWebSocket) :=
  {| options := options m; websocket := v;
     reconnectCount := reconnectCount m; hasOpened := hasOpened m;
     retrier := retrier m |}.

Definition with_hasOpened (b : bool) (m : ReduxWebSocket) :=
  {| options := options m; websocket := websocket m;
     reconnectCount := reconnectCount m; hasOpened := b;
     retrier := retrier m |}.

Definition with_retrier (r : Retry.Operation) (m : ReduxWebSocket) :=
  {| options := options m; websocket := websocket m;
     reconnectCount := reconnectCount m; hasOpened := hasOpened m;
     retrier := r |}.

Definition assign_websocket (v : option WebSocket) : M unit :=
  modify (with_websocket v) ;; emit (Assign_websocket v).

Definition assign_hasOpened (b : bool) : M unit :=
  modify (with_hasOpened b) ;; emit (Assign_hasOpened b).

Definition dispatch (a : Notification) : M unit := emit (Dispatch a).

Definition retrier_stop : M unit :=
  emit Retrier_stop ;;
  modify (fun m => with_retrier (Retry.stop (retrier m)) m).

Definition retrier_reset : M unit :=
  emit Retrier_reset ;;
  modify (fun m => with_retrier (Retry.reset (retrier m)) m).

Definition retrier_retry (err : Js.Value) : M bool :=
  emit (Retrier_retry err) ;;
  r <- gets retrier ;;
  modify (with_retrier (snd (Retry.retry err r))) ;;
  ret (fst (Retry.retry err r)).

(** [new WebSocket(url, protocols)]: a fresh object in state CONNECTING.
    (A malformed URL, for which the constructor throws, is not modelled.) *)
Definition new_WebSocket (url : string) (protocols : option (list string))
  : M WebSocket :=
  fun w =>
    let sock := length (sockets w) in
    (Normal sock,
     {| this := this w; sockets := sockets w ++ [CONNECTING] |},
     [NewWebSocket sock url protocols]).

(** [sock.close(code, reason)] starts the closing handshake of a socket that
    is not yet closing or closed. *)
Definition closing (s : ReadyState) : ReadyState :=
  match s with
  | CONNECTING | OPEN => CLOSING
  | CLOSING | CLOSED => s
  end.

Definition socket_close (sock : WebSocket) (code : Z) (reason : string)
  : M unit :=
  fun w =>
    (Normal tt,
     {| this := this w; sockets := alter closing sock (sockets w) |},
     [SocketClose sock code reason]).

Definition socket_send (sock : WebSocket) (data : string) : M unit :=
  emit (SocketSend sock data).

(** [code || d] for an optional number. *)
Definition orNum (code : option Z) (d : Z) : Z :=
  match code with
  | Some c => if Js.truthy (Js.Num c) then c else d
  | None => d
  end.

(** *** The methods *)

Definition close (code : option Z) (reason : option string) : M unit :=
  ws <- gets websocket ;;
  match ws with
  | Some sock =>
      retrier_stop ;;
      socket_close sock
        (orNum code 1000)
        (Js.orElse reason "WebSocket connection closed by redux-websocket.") ;;
      assign_websocket None ;;
      assign_hasOpened false
  | None => ret tt
  end.

Definition reliablyConnect (payload : ConnectPayload) : M unit :=
  prefix <- gets (fun m => prefix (options m)) ;;
  attempts <- gets (fun m => Retry.attempts (retrier m)) ;;
  let retries := attempts - 1 in
  (if Js.truthy (Js.Num retries)
   then
     (if retries =? 1 then dispatch (beginReconnect prefix) else ret tt) ;;
     dispatch (reconnectAttempt retries prefix)
   else ret tt) ;;
  sock <- match protocols payload with
          | Some ps => new_WebSocket (url payload) (Some ps)
          | None => new_WebSocket (url payload) None
          end ;;
  assign_websocket (Some sock).

(** [retrier.attempt(fn, { timeout, cb })]: the scheduler's bookkeeping, then
    the immediate first call of [fn]. *)
Definition retrier_attempt (payload : ConnectPayload) (timeout : Z) : M unit :=
  emit (Retrier_attempt timeout) ;;
  modify (fun m => with_retrier (Retry.attempt payload (retrier m)) m) ;;
  reliablyConnect payload.

Definition connect (payload : ConnectPayload) : M unit :=
  emit (ConsoleLog "Top of connect") ;;
  close None None ;;
  retrier_reset ;;
  retrier_attempt payload 3000.

Definition onTimeout : M unit :=
  emit (ConsoleLog "Websocket connection timed out") ;;
  ws <- gets websocket ;;
  match ws with
  | Some sock => socket_close sock 1000 "client-side timeout"
  | None => ret tt
  end.

Definition attemptReconnection (reason : string) : M unit :=
  prefix <- gets (fun m => prefix (options m)) ;;
  again <- retrier_retry (Js.Err "Error" ("Websocket closed: " ++ reason)) ;;
  if again
  then dispatch (broken prefix)
  else dispatch (reconnectAbandoned prefix).

Definition notInitialized : Js.Value :=
  Js.Err "Error"
    "Socket connection not initialized. Dispatch WEBSOCKET_CONNECT first".

Definition noSerializer : Js.Value :=
  Js.Err "Error" "Serializer not provided".

Definition disconnect : M unit :=
  ws <- gets websocket ;;
  match ws with
  | Some _ => close None None
  | None => throw notInitialized
  end.

Definition send (payload : Js.Value) : M unit :=
  ws <- gets websocket ;;
  match ws with
  | Some sock =>
      ser <- gets (fun m => serializer (options m)) ;;
      match ser with
      | Some f => socket_send sock (f payload)
      | None => throw noSerializer
      end
  | None => throw notInitialized
  end.

Definition handleClose (prefix : string) (event : CloseEvent) : M unit :=
  dispatch (closed event prefix).

Definition handleError (prefix : string) : M unit :=
  dispatch (error Js.Null (Js.Err "Error" "`redux-websocket` error") prefix).

Definition handleOpen (prefix : string) (onOpen : option string)
    (event : Js.Value) : M unit :=
  retrier_stop ;;
  retrier_reset ;;
  opened <- gets hasOpened ;;
  (if opened then dispatch (reconnected prefix) else ret tt) ;;
  ws <- gets websocket ;;
  match onOpen, ws with
  | Some hook, Some sock => emit (InvokeOnOpen hook sock)
  | _, _ => ret tt
  end ;;
  dispatch (open event prefix) ;;
  assign_hasOpened true.

Definition handleMessage (prefix : string) (event : Js.Value) : M unit :=
  dispatch (message event prefix).

(** *** The listeners that [reliablyConnect] registers on every socket

    The four arrow functions close over [dispatch] and the prefix read from
    the options, which no method ever writes; they are run by the native
    events of any socket the manager has created. *)

Definition listener_close (event : CloseEvent) : M unit :=
  prefix <- gets (fun m => prefix (options m)) ;;
  handleClose prefix event ;;
  attemptReconnection (reason event).

Definition listener_error : M unit :=
  prefix <- gets (fun m => prefix (options m)) ;;
  handleError prefix.

Definition listener_open (event : Js.Value) : M unit :=
  prefix <- gets (fun m => prefix (options m)) ;;
  hook <- gets (fun m => onOpen (options m)) ;;
  handleOpen prefix hook event.

Definition listener_message (event : Js.Value) : M unit :=
  prefix <- gets (fun m => prefix (options m)) ;;
  handleMessage prefix event.

(** *** The two timers of the scheduler *)

(** Modelled from the spec: when the backoff delay set by [retry] has passed,
    the scheduler calls the connect callback again ("schedules connectFn
    again after that delay"); a cancelled timer does nothing. *)
Definition onRetryTimer : M unit :=
  r <- gets retrier ;;
  if Retry.retryTimer r
  then
    modify (with_retrier (Retry.fire r)) ;;
    match Retry.fn r with
    | Some payload => reliablyConnect payload
    | None => ret tt
    end
  else ret tt.

(** Modelled from the spec: when the attempt has not been stopped within the
    timeout, the scheduler calls the [cb] given to [attempt], here
    [onTimeout]. *)
Definition onAttemptTimer : M unit :=
  r <- gets retrier ;;
  if Retry.attemptTimer r
  then modify (with_retrier (Retry.expire r)) ;; onTimeout
  else ret tt.

(** *** The constructor *)

Definition new_ReduxWebSocket (o : ReduxWebSocketOptions) : ReduxWebSocket :=
  {| options := o;
     websocket := None;
     reconnectCount := 0;
     hasOpened := false;
     retrier :=
       Retry.operation
         {| Retry.forever := true; Retry.maxTimeout := 1000;
            Retry.minTimeout := 1000; Retry.retries := None |} |}.

(** A freshly constructed manager, before any socket exists. *)
Definition boot (o : ReduxWebSocketOptions) : World :=
  {| this := new_ReduxWebSocket o; sockets := [] |}.

(** *** Inputs: commands, native socket events, timers *)

Inductive Input :=
| Cmd_connect (payload : ConnectPayload)
| Cmd_disconnect
| Cmd_send (payload : Js.Value)
| Native_open (sock : WebSocket) (event : Js.Value)
| Native_close (sock : WebSocket) (event : CloseEvent)
| Native_error (sock : WebSocket)
| Native_message (sock : WebSocket) (event : Js.Value)
| Timer_retry
| Timer_attemptTimeout.

(** The browser moves the socket to its new ready state before it runs the
    listeners. *)
Definition becomes (sock : WebSocket) (s : ReadyState) : M unit :=
  fun w =>
    (Normal tt,
     {| this := this w; sockets := alter (fun _ => s) sock (sockets w) |},
     []).

Definition step (i : Input) : M unit :=
  match i with
  | Cmd_connect payload => connect payload
  | Cmd_disconnect => disconnect
  | Cmd_send payload => send payload
  | Native_open sock event => becomes sock OPEN ;; listener_open event
  | Native_close sock event => becomes sock CLOSED ;; listener_close event
  | Native_error sock => listener_error
  | Native_message sock event => listener_message event
  | Timer_retry => onRetryTimer
  | Timer_attemptTimeout => onAttemptTimer
  end.

(** A run: the inputs one after the other; an error thrown by a command goes
    to its caller and leaves the instance as it was at the [throw]. *)
Fixpoint run (w : World) (inputs : list Input) : World * list Effect :=
  match inputs with
  | [] => (w, [])
  | i :: rest =>
      let r := step i w in
      let r' := run (world r) rest in
      (fst r', effects r ++ snd r')
  end.

(** Which inputs the surroundings can produce: a socket opens only while
    CONNECTING, closes once, delivers messages only while OPEN, and a timer
    fires only while pending. *)
Definition enabled (w : World) (i : Input) : bool :=
  match i with
  | Cmd_connect _ | Cmd_disconnect | Cmd_send _ => true
  | Native_open sock _ =>
      match sockets w !! sock with Some CONNECTING => true | _ => false end
  | Native_close sock _ | Native_error sock =>
      match sockets w !! sock with
      | Some CONNECTING | Some OPEN | Some CLOSING => true
      | _ => false
      end
  | Native_message sock _ =>
      match sockets w !! sock with Some OPEN => true | _ => false end
  | Timer_retry => Retry.retryTimer (retrier (this w))
  | Timer_attemptTimeout => Retry.attemptTimer (retrier (this w))
  end.

Fixpoint feasible (w : World) (inputs : list Input) : bool :=
  match inputs with
  | [] => true
  | i :: rest => enabled w i && feasible (world (step i w)) rest
  end.

(** The notifications among the effects, in order. *)
Definition notifications (l : list Effect) : list Notification :=
  flat_map (fun e => match e with Dispatch a => [a] | _ => [] end) l.

(** ** Vocabulary of the properties *)

(** The two deliberate closes: the disconnect command, and the connect
    command (which closes the socket it replaces). *)
Definition deliberate (i : Input) : bool :=
  match i with
  | Cmd_connect _ | Cmd_disconnect => true
  | _ => false
  end.

Definition is_close (i : Input) : bool :=
  match i with Native_close _ _ => true | _ => false end.


(** Socket closes, possibly with firings of the scheduler's timers between
    them. *)
Definition close_or_timer (i : Input) : bool :=
  match i with
  | Native_close _ _ | Timer_retry | Timer_attemptTimeout => true
  | _ => false
  end.

(** The scheduler's attempt count as read after each socket close of a run. *)
Fixpoint attempts_after_closes (w : World) (inputs : list Input) : list Z :=
  match inputs with
  | [] => []
  | i :: rest =>
      let w' := world (step i w) in
      (if is_close i then [Retry.attempts (retrier (this w'))] else [])
      ++ attempts_after_closes w' rest
  end.

(** A retry cycle: the connect command, then for every failed attempt the
    close of its socket and the firing of the backoff timer. *)
Definition retry_cycle (payload : ConnectPayload)
    (closes : list (WebSocket * CloseEvent)) : list Input :=
  Cmd_connect payload
  :: flat_map (fun c => [Native_close (fst c) (snd c); Timer_retry]) closes.

(** What a retry cycle is expected to dispatch from its [k]-th retry on. *)
Fixpoint cycle_notifications (p : string) (k : Z)
    (closes : list (WebSocket * CloseEvent)) : list Notification :=
  match closes with
  | [] => []
  | c :: rest =>
      [closed (snd c) p; broken p]
      ++ (if k =? 1 then [beginReconnect p] else [])
      ++ [reconnectAttempt k p]
      ++ cycle_notifications p (k + 1) rest
  end.

(** What one call of [reliablyConnect] announces, given the number of retries
    it computes. *)
Definition announcement (retries : Z) (p : string) : list Notification :=
  if retries =? 0 then []
  else (if retries =? 1 then [beginReconnect p] else [])
       ++ [reconnectAttempt retries p].

(** The scheduler is in the middle of a cycle that cannot run out. *)
Definition cycling (w : World) : Prop :=
  Retry.state (retrier (this w)) = Retry.attempting
  /\ Retry.forever (Retry.options (retrier (this w))) = true.

Definition is_closed (n : Notification) : bool :=
  match n with closed _ _ => true | _ => false end.

Definition is_beginReconnect (n : Notification) : bool :=
  match n with beginReconnect _ => true | _ => false end.

Definition is_reconnectAbandoned (n : Notification) : bool :=
  match n with reconnectAbandoned _ => true | _ => false end.

Definition is_InvokeOnOpen (e : Effect) : bool :=
  match e with InvokeOnOpen _ _ => true | _ => false end.

Definition count {A} (f : A -> bool) (l : list A) : nat :=
  length (List.filter f l).

(** The configuration used in the worked scenarios. *)
Definition demoOptions : ReduxWebSocketOptions :=
  {| prefix := "REDUX_WEBSOCKET";
     reconnectInterval := 2000;
     reconnectOnClose := true;
     onOpen := Some "onOpen";
     serializer := Some (fun v => match v with Js.Str s => s | _ => "" end) |}.

Definition wssX : ConnectPayload := {| url := "wss://x"; protocols := None |}.

Definition refused : CloseEvent :=
  {| code := 1006; reason := "refused"; wasClean := false |}.

(** *** Vocabulary of the further properties *)

(** The value that [buildAction] puts under [meta.timestamp]. *)
Definition stamp (toJSON : Z -> string) (now : Z) (ts : bool) : Js.Value :=
  if ts then Js.Str (toJSON now) else Js.Date now.

(** The prefix argument a notification was built with. *)
Definition prefix_of (n : Notification) : string :=
  match n with
  | beginReconnect p | reconnectAttempt _ p | reconnected p
  | reconnectAbandoned p | open _ p | broken p | closed _ p | message _ p
  | error _ _ p => p
  end.

(** The socket an effect operates on, if it operates on one. *)
Definition socket_target (e : Effect) : option WebSocket :=
  match e with
  | SocketClose sock _ _ | SocketSend sock _ | InvokeOnOpen _ sock => Some sock
  | _ => None
  end.


Definition is_NewWebSocket (e : Effect) : bool :=
  match e with NewWebSocket _ _ _ => true | _ => false end.

Definition is_open (i : Input) : bool :=
  match i with Native_open _ _ => true | _ => false end.

(** The handle in [websocket], if any, is one of the constructed sockets. *)
Definition held_valid (w : World) : Prop :=
  match websocket (this w) with
  | Some sock => (sock < length (sockets w))%nat
  | None => True
  end.

(** How many sockets an input makes the manager construct. *)
Definition constructs (w : World) (i : Input) : nat :=
  match i with
  | Cmd_connect _ => 1
  | Timer_retry =>
      if Retry.retryTimer (retrier (this w))
      then match Retry.fn (retrier (this w)) with
           | Some _ => 1
           | None => 0
           end
      else 0
  | _ => 0
  end.

(** Inputs that are neither commands nor open events. *)
Definition quiet_input (i : Input) : bool :=
  match i with
  | Native_close _ _ | Native_error _ | Native_message _ _
  | Timer_retry | Timer_attemptTimeout => true
  | _ => false
  end.

(** The state a deliberate close leaves: the scheduler stopped with no
    backoff timer pending, and no socket held. *)
Definition halted (w : World) : Prop :=
  Retry.state (retrier (this w)) = Retry.stopped
  /\ Retry.retryTimer (retrier (this w)) = false
  /\ websocket (this w) = None.

Definition is_error_or_message (i : Input) : bool :=
  match i with
  | Native_error _ | Native_message _ _ => true
  | _ => false
  end.

(** What an error or a message event is expected to do: one dispatch. *)
Definition passive_effects (p : string) (i : Input) : list Effect :=
  match i with
  | Native_error _ =>
      [Dispatch (error Js.Null (Js.Err "Error" "`redux-websocket` error") p)]
  | Native_message _ event => [Dispatch (message event p)]
  | _ => []
  end.

(** ** Properties of the action creators *)

Section ActionCreators.

Variable K : ActionTypes.
Variable toJSON : Z -> string.
Variable now : Z.

Lemma buildAction_type002 actionType ts payload meta :
  Built.type (Actions002.buildAction toJSON now actionType ts payload meta)
  = actionType.
Proof.
  unfold Actions002.buildAction.
  destruct (Js.truthy payload); reflexivity.
Qed.

Lemma connect_type002 u ts args :
  Built.type (Actions002.connect K toJSON now u ts args)
  = (match args with
     | WithPrefix p | WithProtocolsAndPrefix _ p =>
         Js.orElse (Some p) (DEFAULT_PREFIX K)
     | NoRest | WithProtocols _ => DEFAULT_PREFIX K
     end ++ "::" ++ WEBSOCKET_CONNECT K)%string.
Proof.
  unfold Actions002.connect.
  destruct args; cbn [Actions002.args_length Actions002.isProtocols Z.eqb
                      Pos.eqb Js.orElse];
    rewrite buildAction_type002; reflexivity.
Qed.

End ActionCreators.

(** C9, as stated, fails: a library-dispatched creator called without a
    prefix puts the text of [undefined] where the claim expects the default
    prefix. *)
Lemma C9_counterexample :
  Built.type
    (Actions002.beginReconnect specActionTypes (fun _ => "") 0 false None)
  = "undefined::BEGIN_RECONNECT"
  /\ Built.type
       (Actions002.beginReconnect specActionTypes (fun _ => "") 0 false None)
     <> (DEFAULT_PREFIX specActionTypes ++ "::"
         ++ WEBSOCKET_BEGIN_RECONNECT specActionTypes)%string.
Proof.
  split; [reflexivity | discriminate].
Qed.

(** C9 (amended): the three user-dispatched creators (connect, disconnect,
    send) fall back to [DEFAULT_PREFIX] when no prefix, or an empty one, is
    supplied, and their type is [<prefix>::<EVENT_NAME>]; the eight
    library-dispatched creators apply no default: their type is composed from
    the prefix argument as it is, an omitted prefix being rendered as the text
    [undefined]. *)
Theorem C9_default_prefix_only_for_user_creators :
  forall (K : ActionTypes) (toJSON : Z -> string) (now : Z),
    let user (name : string) := (DEFAULT_PREFIX K ++ "::" ++ name)%string in
    let lib (p : option string) (name : string) :=
      (match p with Some s => s | None => "undefined" end
       ++ "::" ++ name)%string in
    (forall u ts,
        Built.type (Actions002.connect K toJSON now u ts NoRest)
        = user (WEBSOCKET_CONNECT K))
    /\ (forall u ts ps,
        Built.type (Actions002.connect K toJSON now u ts (WithProtocols ps))
        = user (WEBSOCKET_CONNECT K))
    /\ (forall u ts,
        Built.type (Actions002.connect K toJSON now u ts (WithPrefix ""))
        = user (WEBSOCKET_CONNECT K))
    /\ (forall ts,
        Built.type (Actions002.disconnect K toJSON now ts None)
        = user (WEBSOCKET_DISCONNECT K))
    /\ (forall ts,
        Built.type (Actions002.disconnect K toJSON now ts (Some ""))
        = user (WEBSOCKET_DISCONNECT K))
    /\ (forall msg ts,
        Built.type (Actions002.send K toJSON now msg ts None)
        = user (WEBSOCKET_SEND K))
    /\ (forall msg ts,
        Built.type (Actions002.send K toJSON now msg ts (Some ""))
        = user (WEBSOCKET_SEND K))
    /\ (forall ts p,
        Built.type (Actions002.beginReconnect K toJSON now ts p)
        = lib p (WEBSOCKET_BEGIN_RECONNECT K))
    /\ (forall n ts p,
        Built.type (Actions002.reconnectAttempt K toJSON now n ts p)
        = lib p (WEBSOCKET_RECONNECT_ATTEMPT K))
    /\ (forall ts p,
        Built.type (Actions002.reconnected K toJSON now ts p)
        = lib p (WEBSOCKET_RECONNECTED K))
    /\ (forall ev ts p,
        Built.type (Actions002.open K toJSON now ev ts p)
        = lib p (WEBSOCKET_OPEN K))
    /\ (forall ts p,
        Built.type (Actions002.broken K toJSON now ts p)
        = lib p (WEBSOCKET_BROKEN K))
    /\ (forall ev ts p,
        Built.type (Actions002.closed K toJSON now ev ts p)
        = lib p (WEBSOCKET_CLOSED K))
    /\ (forall ev ts p,
        Built.type (Actions002.message K toJSON now ev ts p)
        = lib p (WEBSOCKET_MESSAGE K))
    /\ (forall orig err ts p,
        Built.type (Actions002.error K toJSON now orig err ts p)
        = lib p (WEBSOCKET_ERROR K)).
Proof.
  intros K toJSON now user lib. subst user lib. cbv beta.
  repeat split; intros;
    first [ rewrite connect_type002; reflexivity
          | unfold Actions002.disconnect, Actions002.send,
              Actions002.beginReconnect, Actions002.reconnectAttempt,
              Actions002.reconnected, Actions002.open, Actions002.broken,
              Actions002.closed, Actions002.message, Actions002.error;
            rewrite buildAction_type002; try destruct p; reflexivity ].
Qed.

(** C10: every exported action creator of src/unnamed/part_000 returns, for
    the same arguments and the same reading of the clock, the action that its
    namesake of src/unnamed/part_002 returns. *)
Theorem C10_action_modules_agree :
  forall (K : ActionTypes) (toJSON : Z -> string) (now : Z),
    (forall u ts args,
        Actions000.connect K toJSON now u ts args
        = Actions002.connect K toJSON now u ts args)
    /\ (forall ts p,
        Actions000.disconnect K toJSON now ts p
        = Actions002.disconnect K toJSON now ts p)
    /\ (forall msg ts p,
        Actions000.send K toJSON now msg ts p
        = Actions002.send K toJSON now msg ts p)
    /\ (forall ts p,
        Actions000.beginReconnect K toJSON now ts p
        = Actions002.beginReconnect K toJSON now ts p)
    /\ (forall n ts p,
        Actions000.reconnectAttempt K toJSON now n ts p
        = Actions002.reconnectAttempt K toJSON now n ts p)
    /\ (forall ts p,
        Actions000.reconnected K toJSON now ts p
        = Actions002.reconnected K toJSON now ts p)
    /\ (forall ev ts p,
        Actions000.open K toJSON now ev ts p
        = Actions002.open K toJSON now ev ts p)
    /\ (forall ts p,
        Actions000.broken K toJSON now ts p
        = Actions002.broken K toJSON now ts p)
    /\ (forall ev ts p,
        Actions000.closed K toJSON now ev ts p
        = Actions002.closed K toJSON now ev ts p)
    /\ (forall ev ts p,
        Actions000.message K toJSON now ev ts p
        = Actions002.message K toJSON now ev ts p)
    /\ (forall orig err ts p,
        Actions000.error K toJSON now orig err ts p
        = Actions002.error K toJSON now orig err ts p).
Proof.
  intros K toJSON now. repeat split; intros; reflexivity.
Qed.

(** ** The methods, evaluated *)

Ltac open_world w :=
  let o := fresh "o" in
  let ws := fresh "ws" in
  let rc := fresh "rc" in
  let ho := fresh "ho" in
  let r := fresh "r" in
  let socks := fresh "socks" in
  destruct w as [[o ws rc ho r] socks].

Lemma reliablyConnect_eq payload w :
  reliablyConnect payload w =
    (Normal tt,
     {| this := with_websocket (Some (length (sockets w))) (this w);
        sockets := sockets w ++ [CONNECTING] |},
     map Dispatch
       (announcement (Retry.attempts (retrier (this w)) - 1)
          (prefix (options (this w))))
     ++ [NewWebSocket (length (sockets w)) (url payload) (protocols payload);
         Assign_websocket (Some (length (sockets w)))]).
Proof.
  open_world w. destruct payload as [u [ps|]].
  all: unfold reliablyConnect, announcement, Retry.attempts; cbn.
  all: destruct (Retry.attemptCount r - 1 =? 0); cbn;
    try destruct (Retry.attemptCount r - 1 =? 1); reflexivity.
Qed.

Lemma close_eq w :
  close None None w =
    match websocket (this w) with
    | Some sock =>
        (Normal tt,
         {| this :=
              with_hasOpened false
                (with_websocket None
                   (with_retrier (Retry.stop (retrier (this w))) (this w)));
            sockets := alter closing sock (sockets w) |},
         [Retrier_stop;
          SocketClose sock 1000
            "WebSocket connection closed by redux-websocket.";
          Assign_websocket None; Assign_hasOpened false])
    | None => (Normal tt, w, [])
    end.
Proof.
  open_world w. destruct ws; reflexivity.
Qed.

Lemma attemptReconnection_eq reason w :
  let err := Js.Err "Error" ("Websocket closed: " ++ reason) in
  let again := Retry.retry err (retrier (this w)) in
  attemptReconnection reason w =
    (Normal tt,
     {| this := with_retrier (snd again) (this w); sockets := sockets w |},
     [Retrier_retry err;
      Dispatch (if fst again
                then broken (prefix (options (this w)))
                else reconnectAbandoned (prefix (options (this w))))]).
Proof.
  open_world w. cbn -[Retry.retry].
  destruct (fst (Retry.retry _ r)); reflexivity.
Qed.

Lemma handleOpen_eq p hook event w :
  handleOpen p hook event w =
    (Normal tt,
     {| this :=
          with_hasOpened true
            (with_retrier (Retry.reset (Retry.stop (retrier (this w))))
               (this w));
        sockets := sockets w |},
     [Retrier_stop; Retrier_reset]
     ++ (if hasOpened (this w) then [Dispatch (reconnected p)] else [])
     ++ match hook, websocket (this w) with
        | Some h, Some sock => [InvokeOnOpen h sock]
        | _, _ => []
        end
     ++ [Dispatch (open event p); Assign_hasOpened true]).
Proof.
  open_world w. destruct ho, hook, ws; reflexivity.
Qed.

Lemma connect_eq payload w :
  connect payload w =
    let w1 := world (close None None w) in
    (Normal tt,
     {| this :=
          with_websocket (Some (length (sockets w1)))
            (with_retrier
               (Retry.attempt payload (Retry.reset (retrier (this w1))))
               (this w1));
        sockets := sockets w1 ++ [CONNECTING] |},
     [ConsoleLog "Top of connect"]
     ++ effects (close None None w)
     ++ [Retrier_reset; Retrier_attempt 3000;
         NewWebSocket (length (sockets w1)) (url payload) (protocols payload);
         Assign_websocket (Some (length (sockets w1)))]).
Proof.
  open_world w. destruct payload as [u [ps|]], ws; reflexivity.
Qed.

Lemma onRetryTimer_eq w :
  onRetryTimer w =
    let r := retrier (this w) in
    if Retry.retryTimer r then
      let w1 := {| this := with_retrier (Retry.fire r) (this w);
                   sockets := sockets w |} in
      match Retry.fn r with
      | Some payload => reliablyConnect payload w1
      | None => (Normal tt, w1, [])
      end
    else (Normal tt, w, []).
Proof.
  open_world w. cbn -[reliablyConnect].
  destruct (Retry.retryTimer r); [| reflexivity].
  cbn -[reliablyConnect].
  destruct (Retry.fn r) as [payload|]; [| reflexivity].
  cbn -[reliablyConnect].
  match goal with |- context [reliablyConnect ?p ?w] =>
    destruct (reliablyConnect p w) as [[c w'] l] eqn:E end.
  rewrite reliablyConnect_eq in E. inversion E; subst. reflexivity.
Qed.

Lemma onAttemptTimer_eq w :
  onAttemptTimer w =
    let r := retrier (this w) in
    if Retry.attemptTimer r then
      (Normal tt,
       {| this := with_retrier (Retry.expire r) (this w);
          sockets := match websocket (this w) with
                     | Some sock => alter closing sock (sockets w)
                     | None => sockets w
                     end |},
       ConsoleLog "Websocket connection timed out"
       :: match websocket (this w) with
          | Some sock => [SocketClose sock 1000 "client-side timeout"]
          | None => []
          end)
    else (Normal tt, w, []).
Proof.
  open_world w. cbn. destruct (Retry.attemptTimer r), ws; reflexivity.
Qed.

Lemma step_close_eq sock event w :
  let err := Js.Err "Error" ("Websocket closed: " ++ reason event) in
  let again := Retry.retry err (retrier (this w)) in
  let p := prefix (options (this w)) in
  step (Native_close sock event) w =
    (Normal tt,
     {| this := with_retrier (snd again) (this w);
        sockets := alter (fun _ => CLOSED) sock (sockets w) |},
     [Dispatch (closed event p); Retrier_retry err;
      Dispatch (if fst again then broken p else reconnectAbandoned p)]).
Proof.
  open_world w. cbn -[Retry.retry].
  destruct (fst (Retry.retry _ r)); reflexivity.
Qed.

Lemma step_open_eq sock event w :
  step (Native_open sock event) w =
    (Normal tt,
     {| this :=
          with_hasOpened true
            (with_retrier (Retry.reset (Retry.stop (retrier (this w))))
               (this w));
        sockets := alter (fun _ => OPEN) sock (sockets w) |},
     effects (handleOpen (prefix (options (this w)))
                (onOpen (options (this w))) event w)).
Proof.
  open_world w. destruct ho, (onOpen o) eqn:E, ws; cbn; rewrite E; reflexivity.
Qed.

Lemma notifications_app l1 l2 :
  notifications (l1 ++ l2) = notifications l1 ++ notifications l2.
Proof. unfold notifications. apply flat_map_app. Qed.

Lemma notifications_Dispatch l : notifications (map Dispatch l) = l.
Proof.
  induction l as [|a l IH]; [reflexivity|].
  cbn. f_equal. exact IH.
Qed.

Lemma run_cons w i rest :
  run w (i :: rest) =
    (fst (run (world (step i w)) rest),
     effects (step i w) ++ snd (run (world (step i w)) rest)).
Proof. reflexivity. Qed.

(** ** Properties of single operations *)

(** C4: [attemptReconnection(reason)] calls [retrier.retry] once, with the
    error that carries the reason (["Websocket closed: " + reason]); when the
    call returns [true] it dispatches BROKEN and nothing else, when it returns
    [false] it dispatches RECONNECT_ABANDONED and nothing else. *)
Theorem C4_attemptReconnection_broken_or_abandoned :
  forall (w : World) (why : string),
    let err := Js.Err "Error" ("Websocket closed: " ++ why) in
    let again := fst (Retry.retry err (retrier (this w))) in
    let p := prefix (options (this w)) in
    effects (attemptReconnection why w)
    = [Retrier_retry err;
       Dispatch (if again then broken p else reconnectAbandoned p)]
    /\ notifications (effects (attemptReconnection why w))
       = (if again then [broken p] else [reconnectAbandoned p])
    /\ completion (attemptReconnection why w) = Normal tt
    /\ retrier (this (world (attemptReconnection why w)))
       = snd (Retry.retry err (retrier (this w))).
Proof.
  intros w why err again p.
  pose proof (attemptReconnection_eq why w) as E. cbv zeta in E.
  rewrite E. subst err again p. cbn -[Retry.retry].
  repeat split.
  destruct (fst (Retry.retry _ _)); reflexivity.
Qed.

(** C6: [send] throws the invalid-state error when no socket is held, throws
    the configuration error when a socket is held and no serializer is
    configured, and otherwise hands exactly the serializer's output to the
    socket; in the two error cases the instance and the sockets are left as
    they were and nothing is done to the outside, and in no case is the
    payload kept anywhere. A send before any connect is the first case. *)
Theorem C6_send_rejects_or_transmits :
  forall (w : World) (payload : Js.Value),
    match websocket (this w), serializer (options (this w)) with
    | None, _ => send payload w = (Throw notInitialized, w, [])
    | Some _, None => send payload w = (Throw noSerializer, w, [])
    | Some sock, Some f =>
        send payload w = (Normal tt, w, [SocketSend sock (f payload)])
    end
    /\ forall o, send payload (boot o) = (Throw notInitialized, boot o, []).
Proof.
  intros w payload. split; [| reflexivity].
  open_world w. cbn.
  destruct ws as [sock|]; [| reflexivity].
  destruct (serializer o) as [f|] eqn:E; cbn; rewrite E; reflexivity.
Qed.

(** C2, as stated, fails: after connect, a second connect, the close of the
    replaced socket, the retry it schedules and a disconnect, the socket of
    the second connect can still open; the hook is configured, the manager
    holds no socket, and the hook is not invoked. *)
Lemma C2_counterexample :
  let inputs :=
    [Cmd_connect wssX; Cmd_connect wssX; Native_close 0%nat refused;
     Timer_retry; Cmd_disconnect] in
  let w := fst (run (boot demoOptions) inputs) in
  feasible (boot demoOptions) (inputs ++ [Native_open 1%nat Js.Null]) = true
  /\ onOpen (options (this w)) = Some "onOpen"
  /\ effects (step (Native_open 1%nat Js.Null) w)
     = [Retrier_stop; Retrier_reset;
        Dispatch (open Js.Null "REDUX_WEBSOCKET"); Assign_hasOpened true]
  /\ existsb is_InvokeOnOpen (effects (step (Native_open 1%nat Js.Null) w))
     = false.
Proof.
  vm_compute. repeat split.
Qed.

(** C2 (amended): on every native open event the manager stops and then
    resets the retrier, then dispatches RECONNECTED if and only if
    [hasOpened] was true before that open, then invokes the raw-socket hook
    if one is configured and the manager holds a socket at that moment, then
    dispatches OPEN in every case, and finally sets [hasOpened] to true, in
    that order. *)
Theorem C2_open_event_sequence :
  forall (w : World) (sock : WebSocket) (event : Js.Value),
    let p := prefix (options (this w)) in
    let r := step (Native_open sock event) w in
    effects r
    = [Retrier_stop; Retrier_reset]
      ++ (if hasOpened (this w) then [Dispatch (reconnected p)] else [])
      ++ match onOpen (options (this w)), websocket (this w) with
         | Some hook, Some held => [InvokeOnOpen hook held]
         | _, _ => []
         end
      ++ [Dispatch (open event p); Assign_hasOpened true]
    /\ hasOpened (this (world r)) = true
    /\ retrier (this (world r))
       = Retry.reset (Retry.stop (retrier (this w)))
    /\ completion r = Normal tt.
Proof.
  intros w sock event p r. subst p r.
  rewrite step_open_eq, handleOpen_eq. repeat split.
Qed.

(** C5: in every state and for every input of the manager, [hasOpened] is
    written false exactly by a deliberate close, that is by the disconnect
    command or by the connect command when a socket is held (which it
    replaces), and the flag is then false afterwards; a socket-initiated close
    event and the firing of the attempt timeout leave the flag as it was, and
    no other input turns a true flag false. *)
Theorem C5_hasOpened_cleared_only_by_deliberate_close :
  forall (w : World) (i : Input),
    let r := step i w in
    (In (Assign_hasOpened false) (effects r)
     <-> deliberate i = true /\ websocket (this w) <> None)
    /\ (In (Assign_hasOpened false) (effects r)
        -> hasOpened (this (world r)) = false)
    /\ (is_close i = true \/ i = Timer_attemptTimeout
        -> hasOpened (this (world r)) = hasOpened (this w))
    /\ (hasOpened (this w) = true -> hasOpened (this (world r)) = false
        -> deliberate i = true /\ websocket (this w) <> None).
Proof.
  intros w i. destruct i; cbv zeta.
  - change (step (Cmd_connect payload) w) with (connect payload w).
    rewrite connect_eq, close_eq. open_world w. destruct ws; cbn;
      intuition (try discriminate; try congruence).
  - change (step Cmd_disconnect w) with (disconnect w).
    open_world w. destruct ws; cbn;
      intuition (try discriminate; try congruence).
  - open_world w. destruct ws, (serializer o) eqn:E; cbn; rewrite ?E; cbn;
      intuition (try discriminate; try congruence).
  - rewrite step_open_eq, handleOpen_eq. open_world w.
    cbn. destruct ho, (onOpen o), ws; cbn;
      intuition (try discriminate; try congruence).
  - pose proof (step_close_eq sock event w) as E. cbv zeta in E. rewrite E.
    open_world w. cbn -[Retry.retry].
    intuition (try discriminate; try congruence).
  - open_world w. cbn. intuition (try discriminate; try congruence).
  - open_world w. cbn. intuition (try discriminate; try congruence).
  - change (step Timer_retry w) with (onRetryTimer w).
    rewrite onRetryTimer_eq. cbv zeta.
    destruct (Retry.retryTimer (retrier (this w)));
      [destruct (Retry.fn (retrier (this w))); [rewrite reliablyConnect_eq|]|].
    all: open_world w; unfold announcement; cbn -[Z.sub Z.eqb].
    all: repeat match goal with
           | |- context [if ?c then _ else _] => destruct c
           end; cbn;
      intuition (try discriminate; try congruence).
  - change (step Timer_attemptTimeout w) with (onAttemptTimer w).
    rewrite onAttemptTimer_eq. open_world w. cbn.
    destruct (Retry.attemptTimer r), ws; cbn;
      intuition (try discriminate; try congruence).
Qed.

(** An opened connection: a disconnect clears the flag, the close event of
    the socket and the attempt timeout do not. *)
Lemma C5_witness :
  let w :=
    fst (run (boot demoOptions) [Cmd_connect wssX; Native_open 0%nat Js.Null])
  in
  hasOpened (this w) = true
  /\ hasOpened (this (world (step Cmd_disconnect w))) = false
  /\ hasOpened (this (world (step (Native_close 0%nat refused) w))) = true
  /\ hasOpened (this (world (step Timer_attemptTimeout w))) = true.
Proof.
  cbv zeta.
  set (w := fst (run (boot demoOptions)
                   [Cmd_connect wssX; Native_open 0%nat Js.Null])).
  assert (Hw : hasOpened (this w) = true) by reflexivity.
  refine (conj Hw (conj _ (conj _ _))).
  - apply (C5_hasOpened_cleared_only_by_deliberate_close w Cmd_disconnect).
    apply (C5_hasOpened_cleared_only_by_deliberate_close w Cmd_disconnect).
    split; [reflexivity | discriminate].
  - transitivity (hasOpened (this w)); [| exact Hw].
    apply (C5_hasOpened_cleared_only_by_deliberate_close
             w (Native_close 0%nat refused)).
    left; reflexivity.
  - transitivity (hasOpened (this w)); [| exact Hw].
    apply (C5_hasOpened_cleared_only_by_deliberate_close
             w Timer_attemptTimeout).
    right; reflexivity.
Defined.

(** ** Runs *)

Lemma count_app {A} (f : A -> bool) l1 l2 :
  count f (l1 ++ l2) = (count f l1 + count f l2)%nat.
Proof. unfold count. rewrite List.filter_app. apply length_app. Qed.


Lemma retry_options e r :
  Retry.options (snd (Retry.retry e r)) = Retry.options r.
Proof.
  unfold Retry.retry. destruct (Retry.state r), (Retry.allows r); reflexivity.
Qed.

Lemma retry_cycling e r :
  Retry.state r = Retry.attempting ->
  Retry.forever (Retry.options r) = true ->
  Retry.retry e r =
    (true,
     {| Retry.options := Retry.options r;
        Retry.attemptCount := Retry.attemptCount r + 1;
        Retry.state := Retry.attempting;
        Retry.fn := Retry.fn r;
        Retry.retryTimer := true;
        Retry.attemptTimer := Retry.attemptTimer r |}).
Proof.
  intros Hs Hf. unfold Retry.retry, Retry.allows. rewrite Hs, Hf. reflexivity.
Qed.

Lemma connect_cycling payload w :
  Retry.forever (Retry.options (retrier (this w))) = true ->
  let w1 := world (step (Cmd_connect payload) w) in
  cycling w1
  /\ Retry.attempts (retrier (this w1)) = 1
  /\ Retry.fn (retrier (this w1)) = Some payload
  /\ options (this w1) = options (this w)
  /\ notifications (effects (step (Cmd_connect payload) w)) = [].
Proof.
  intros Hf. cbv zeta.
  change (step (Cmd_connect payload) w) with (connect payload w).
  rewrite connect_eq, close_eq. open_world w. cbn in Hf.
  destruct ws; cbn; unfold cycling; cbn; auto.
Qed.

Lemma close_cycling sock event w :
  cycling w ->
  let w1 := world (step (Native_close sock event) w) in
  cycling w1
  /\ Retry.attempts (retrier (this w1)) = Retry.attempts (retrier (this w)) + 1
  /\ Retry.fn (retrier (this w1)) = Retry.fn (retrier (this w))
  /\ Retry.retryTimer (retrier (this w1)) = true
  /\ options (this w1) = options (this w)
  /\ notifications (effects (step (Native_close sock event) w))
     = [closed event (prefix (options (this w)));
        broken (prefix (options (this w)))].
Proof.
  intros [Hs Hf]. cbv zeta.
  pose proof (step_close_eq sock event w) as E. cbv zeta in E. rewrite E.
  rewrite (retry_cycling _ _ Hs Hf). open_world w. cbn in *.
  unfold cycling. cbn. auto 10.
Qed.

Lemma retryTimer_cycling w :
  cycling w ->
  let w1 := world (step Timer_retry w) in
  cycling w1
  /\ Retry.attempts (retrier (this w1)) = Retry.attempts (retrier (this w))
  /\ Retry.fn (retrier (this w1)) = Retry.fn (retrier (this w))
  /\ options (this w1) = options (this w)
  /\ notifications (effects (step Timer_retry w))
     = if Retry.retryTimer (retrier (this w))
       then match Retry.fn (retrier (this w)) with
            | Some _ =>
                announcement (Retry.attempts (retrier (this w)) - 1)
                  (prefix (options (this w)))
            | None => []
            end
       else [].
Proof.
  intros [Hs Hf]. cbv zeta.
  change (step Timer_retry w) with (onRetryTimer w).
  rewrite onRetryTimer_eq. cbv zeta.
  destruct (Retry.retryTimer (retrier (this w)));
    [destruct (Retry.fn (retrier (this w))) eqn:Efn;
     [rewrite reliablyConnect_eq|]|].
  all: open_world w; cbn in *; unfold cycling; cbn.
  all: rewrite ?notifications_app, ?notifications_Dispatch; cbn.
  all: rewrite ?app_nil_r; auto 10.
Qed.

Lemma attemptTimer_cycling w :
  cycling w ->
  let w1 := world (step Timer_attemptTimeout w) in
  cycling w1
  /\ Retry.attempts (retrier (this w1)) = Retry.attempts (retrier (this w))
  /\ notifications (effects (step Timer_attemptTimeout w)) = [].
Proof.
  intros [Hs Hf]. cbv zeta.
  change (step Timer_attemptTimeout w) with (onAttemptTimer w).
  rewrite onAttemptTimer_eq. open_world w. cbn in *.
  destruct (Retry.attemptTimer r), ws; unfold cycling; cbn; auto.
Qed.

Lemma count_abandoned_announcement k p :
  count is_reconnectAbandoned (announcement k p) = 0%nat.
Proof.
  unfold announcement. destruct (k =? 0), (k =? 1); reflexivity.
Qed.

Lemma closes_and_timers_cycling inputs : forall w,
  cycling w ->
  forallb close_or_timer inputs = true ->
  Forall (fun n => Retry.attempts (retrier (this w)) < n)
    (attempts_after_closes w inputs)
  /\ StronglySorted Z.lt (attempts_after_closes w inputs)
  /\ count is_reconnectAbandoned (notifications (snd (run w inputs))) = 0%nat.
Proof.
  induction inputs as [|i rest IH]; intros w Hw Hin.
  - cbn. repeat split; constructor.
  - cbn [forallb] in Hin. apply andb_prop in Hin as [Hi Hrest].
    rewrite run_cons. cbn [snd attempts_after_closes].
    rewrite notifications_app, count_app.
    destruct i; try discriminate Hi; cbn [is_close app].
    + destruct (close_cycling sock event w Hw) as (Hw1 & Ha & _ & _ & _ & Hn).
      destruct (IH _ Hw1 Hrest) as (Hlt & Hsorted & Hcount).
      rewrite Hn, Hcount. rewrite Ha in Hlt.
      split; [| split; [| reflexivity]].
      * constructor; [rewrite Ha; lia|].
        eapply List.Forall_impl; [| exact Hlt]. cbv beta. intros; lia.
      * constructor; [exact Hsorted|]. rewrite Ha. exact Hlt.
    + destruct (retryTimer_cycling w Hw) as (Hw1 & Ha & _ & _ & Hn).
      destruct (IH _ Hw1 Hrest) as (Hlt & Hsorted & Hcount).
      rewrite Ha in Hlt. rewrite Hn, Hcount.
      split; [exact Hlt | split; [exact Hsorted|]].
      destruct (Retry.retryTimer _); [destruct (Retry.fn _)|];
        rewrite ?count_abandoned_announcement; reflexivity.
    + destruct (attemptTimer_cycling w Hw) as (Hw1 & Ha & Hn).
      destruct (IH _ Hw1 Hrest) as (Hlt & Hsorted & Hcount).
      rewrite Ha in Hlt. rewrite Hn, Hcount.
      split; [exact Hlt | split; [exact Hsorted| reflexivity]].
Qed.

Lemma announcement_retry k p :
  1 <= k ->
  announcement k p
  = (if k =? 1 then [beginReconnect p] else []) ++ [reconnectAttempt k p].
Proof.
  intros Hk. unfold announcement.
  destruct (Z.eqb_spec k 0); [lia | reflexivity].
Qed.

Lemma cycle_run payload closes : forall w k,
  cycling w ->
  Retry.fn (retrier (this w)) = Some payload ->
  Retry.attempts (retrier (this w)) = k ->
  1 <= k ->
  notifications
    (snd (run w (flat_map
                   (fun c => [Native_close (fst c) (snd c); Timer_retry])
                   closes)))
  = cycle_notifications (prefix (options (this w))) k closes.
Proof.
  induction closes as [|c rest IH]; intros w k Hw Hfn Hk Hpos; [reflexivity|].
  cbn [flat_map app cycle_notifications].
  rewrite !run_cons. cbn [snd].
  rewrite !notifications_app.
  destruct (close_cycling (fst c) (snd c) w Hw)
    as (Hw1 & Ha1 & Hfn1 & Htimer & Ho1 & Hn1).
  set (w1 := world (step (Native_close (fst c) (snd c)) w)) in *.
  destruct (retryTimer_cycling w1 Hw1) as (Hw2 & Ha2 & Hfn2 & Ho2 & Hn2).
  set (w2 := world (step Timer_retry w1)) in *.
  rewrite Hn1, Hn2, Htimer, Hfn1, Hfn, Ha1, Hk, Ho1.
  replace (k + 1 - 1) with k by lia.
  rewrite (announcement_retry k _ Hpos).
  assert (Hfn' : Retry.fn (retrier (this w2)) = Some payload)
    by (rewrite Hfn2, Hfn1; exact Hfn).
  assert (Hk' : Retry.attempts (retrier (this w2)) = k + 1)
    by (rewrite Ha2, Ha1, Hk; reflexivity).
  rewrite (IH w2 (k + 1) Hw2 Hfn' Hk') by lia.
  rewrite Ho2, Ho1. cbn [app]. rewrite <- !app_assoc. reflexivity.
Qed.

Lemma count_begin_later p closes : forall k,
  2 <= k -> count is_beginReconnect (cycle_notifications p k closes) = 0%nat.
Proof.
  induction closes as [|c rest IH]; intros k Hk; [reflexivity|].
  cbn [cycle_notifications]. rewrite !count_app, IH by lia.
  destruct (Z.eqb_spec k 1); [lia | reflexivity].
Qed.

Lemma count_begin_cycle p closes :
  count is_beginReconnect (cycle_notifications p 1 closes)
  = match closes with [] => 0%nat | _ :: _ => 1%nat end.
Proof.
  destruct closes as [|c rest]; [reflexivity|].
  cbn [cycle_notifications]. rewrite !count_app, count_begin_later by lia.
  reflexivity.
Qed.

(** C1: a call of [reliablyConnect] dispatches nothing on the initial attempt
    (retries = 0), BEGIN_RECONNECT and then RECONNECT_ATTEMPT with count 1 on
    the first retry (retries = 1), and RECONNECT_ATTEMPT with the retry count,
    and no BEGIN_RECONNECT, on every later retry; so a retry cycle (connect,
    then for each failed attempt the close of its socket and the firing of the
    backoff timer) dispatches, retry after retry, CLOSED, BROKEN,
    BEGIN_RECONNECT on the first retry only, and RECONNECT_ATTEMPT with the
    number of the retry, and BEGIN_RECONNECT occurs exactly once in a cycle
    that has a retry. *)
Theorem C1_reconnect_announcements :
  (forall (w : World) (payload : ConnectPayload),
      let retries := Retry.attempts (retrier (this w)) - 1 in
      let p := prefix (options (this w)) in
      notifications (effects (reliablyConnect payload w))
      = if retries =? 0 then []
        else if retries =? 1 then [beginReconnect p; reconnectAttempt 1 p]
        else [reconnectAttempt retries p])
  /\ (forall (w : World) (payload : ConnectPayload)
             (closes : list (WebSocket * CloseEvent)),
         Retry.forever (Retry.options (retrier (this w))) = true ->
         let l := notifications (snd (run w (retry_cycle payload closes))) in
         l = cycle_notifications (prefix (options (this w))) 1 closes
         /\ count is_beginReconnect l
            = match closes with [] => 0%nat | _ :: _ => 1%nat end).
Proof.
  split.
  - intros w payload retries p. subst retries p.
    rewrite reliablyConnect_eq. cbn [effects snd].
    rewrite notifications_app, notifications_Dispatch. cbn.
    rewrite app_nil_r. unfold announcement.
    destruct (_ =? 0); [reflexivity|].
    destruct (Z.eqb_spec (Retry.attempts (retrier (this w)) - 1) 1) as [E|E];
      [rewrite E|]; reflexivity.
  - intros w payload closes Hf l.
    assert (El : l = cycle_notifications (prefix (options (this w))) 1 closes).
    { subst l. unfold retry_cycle. rewrite run_cons. cbn [snd].
      rewrite notifications_app.
      destruct (connect_cycling payload w Hf) as (Hw1 & Ha & Hfn & Ho & Hn).
      rewrite Hn. cbn [app].
      rewrite (cycle_run payload closes _ 1 Hw1 Hfn Ha); [| lia].
      rewrite Ho. reflexivity. }
    split; [exact El|]. rewrite El. apply count_begin_cycle.
Qed.



(** Three failed attempts after a connect: one BEGIN_RECONNECT. *)
Lemma C1_witness :
  let closes := [(0%nat, refused); (1%nat, refused); (2%nat, refused)] in
  let l :=
    notifications (snd (run (boot demoOptions) (retry_cycle wssX closes))) in
  feasible (boot demoOptions) (retry_cycle wssX closes) = true
  /\ l = cycle_notifications "REDUX_WEBSOCKET" 1 closes
  /\ count is_beginReconnect l = 1%nat.
Proof.
  split; [reflexivity|].
  exact (proj2 C1_reconnect_announcements (boot demoOptions) wssX
           [(0%nat, refused); (1%nat, refused); (2%nat, refused)] eq_refl).
Defined.

(** C3: with a retrier configured with [forever = true], as the constructor
    configures it, after a connect command and any number of socket close
    events (with or without firings of the scheduler's timers between them)
    the attempt count read after the connect and after each close is strictly
    increasing, and no RECONNECT_ABANDONED notification is dispatched. *)
Theorem C3_forever_never_abandons :
  forall (w : World) (payload : ConnectPayload) (inputs : list Input),
    Retry.forever (Retry.options (retrier (this w))) = true ->
    forallb close_or_timer inputs = true ->
    let w1 := world (step (Cmd_connect payload) w) in
    StronglySorted Z.lt
      (Retry.attempts (retrier (this w1)) :: attempts_after_closes w1 inputs)
    /\ count is_reconnectAbandoned
         (notifications (snd (run w (Cmd_connect payload :: inputs))))
       = 0%nat.
Proof.
  intros w payload inputs Hf Hin w1.
  destruct (connect_cycling payload w Hf) as (Hw1 & _ & _ & _ & Hn).
  fold w1 in Hw1.
  destruct (closes_and_timers_cycling inputs w1 Hw1 Hin)
    as (Hlt & Hsorted & Hcount).
  split.
  - constructor; assumption.
  - rewrite run_cons. cbn [snd]. fold w1.
    rewrite notifications_app, count_app, Hn, Hcount. reflexivity.
Qed.

(** A connect and three closes, each followed by its retry. *)
Lemma C3_witness :
  let inputs :=
    [Native_close 0%nat refused; Timer_retry;
     Native_close 1%nat refused; Timer_retry;
     Native_close 2%nat refused] in
  feasible (boot demoOptions) (Cmd_connect wssX :: inputs) = true
  /\ StronglySorted Z.lt [1; 2; 3; 4]
  /\ count is_reconnectAbandoned
       (notifications
          (snd (run (boot demoOptions) (Cmd_connect wssX :: inputs))))
     = 0%nat.
Proof.
  split; [reflexivity|].
  exact (C3_forever_never_abandons (boot demoOptions) wssX
           [Native_close 0%nat refused; Timer_retry;
            Native_close 1%nat refused; Timer_retry;
            Native_close 2%nat refused] eq_refl eq_refl).
Defined.


(** C8, as stated, fails: in the scenario the notifications after BROKEN are
    BEGIN_RECONNECT and then RECONNECT_ATTEMPT with count 1, not the other way
    round (and CLOSED comes before BROKEN). *)
Lemma C8_counterexample :
  let p := "REDUX_WEBSOCKET" in
  let l :=
    notifications
      (snd (run (boot demoOptions)
              [Cmd_connect wssX; Native_close 0%nat refused; Timer_retry])) in
  l = [closed refused p; broken p; beginReconnect p; reconnectAttempt 1 p]
  /\ List.filter (fun n => negb (is_closed n)) l
     <> [broken p; reconnectAttempt 1 p; beginReconnect p].
Proof.
  split; [reflexivity | discriminate].
Qed.

(** C8 (amended): in the scenario connect("wss://x") followed by a native
    close, for instance with reason "refused", the close event dispatches
    CLOSED and then BROKEN and opens no socket; the second connect attempt is
    made when the backoff timer fires, and dispatches BEGIN_RECONNECT and then
    RECONNECT_ATTEMPT with count 1 before it constructs the new socket. *)
Theorem C8_first_retry_scenario :
  forall (o : ReduxWebSocketOptions) (event : CloseEvent),
    let p := prefix o in
    let w1 := world (step (Cmd_connect wssX) (boot o)) in
    let w2 := world (step (Native_close 0%nat event) w1) in
    feasible (boot o)
      [Cmd_connect wssX; Native_close 0%nat event; Timer_retry] = true
    /\ notifications
         (snd (run (boot o)
                 [Cmd_connect wssX; Native_close 0%nat event; Timer_retry]))
       = [closed event p; broken p; beginReconnect p; reconnectAttempt 1 p]
    /\ effects (step (Cmd_connect wssX) (boot o))
       = [ConsoleLog "Top of connect"; Retrier_reset; Retrier_attempt 3000;
          NewWebSocket 0%nat "wss://x" None; Assign_websocket (Some 0%nat)]
    /\ effects (step (Native_close 0%nat event) w1)
       = [Dispatch (closed event p);
          Retrier_retry (Js.Err "Error" ("Websocket closed: " ++ reason event));
          Dispatch (broken p)]
    /\ effects (step Timer_retry w2)
       = [Dispatch (beginReconnect p); Dispatch (reconnectAttempt 1 p);
          NewWebSocket 1%nat "wss://x" None; Assign_websocket (Some 1%nat)].
Proof.
  intros o event. cbv zeta. repeat split.
Qed.

(** ** Further properties of the action creators *)

Lemma string_length_append (a b : string) :
  String.length (a ++ b) = (String.length a + String.length b)%nat.
Proof.
  induction a as [|c a IH]; [reflexivity|].
  cbn. rewrite IH. reflexivity.
Qed.

Lemma string_append_cancel_r (s : string) : forall a b : string,
  (a ++ s = b ++ s)%string -> a = b.
Proof.
  induction a as [|c a IH]; intros [|d b] H.
  - reflexivity.
  - apply (f_equal String.length) in H. cbn in H.
    rewrite string_length_append in H. lia.
  - apply (f_equal String.length) in H. cbn in H.
    rewrite string_length_append in H. lia.
  - cbn in H. injection H as Hc Hrest. f_equal; [exact Hc|].
    apply IH. exact Hrest.
Qed.

Section MoreActionCreators.

Variable K : ActionTypes.
Variable toJSON : Z -> string.
Variable now : Z.

Lemma buildAction_meta002 actionType ts payload meta :
  Built.meta (Actions002.buildAction toJSON now actionType ts payload meta)
  = Js.spread [("timestamp", stamp toJSON now ts)]
      (match meta with Some m => m | None => [] end).
Proof.
  unfold Actions002.buildAction, stamp.
  destruct (Js.truthy payload), ts; reflexivity.
Qed.

Lemma buildAction_payload002 actionType ts payload meta :
  Built.payload (Actions002.buildAction toJSON now actionType ts payload meta)
  = if Js.truthy payload then Some payload else None.
Proof.
  unfold Actions002.buildAction. destruct (Js.truthy payload); reflexivity.
Qed.

Lemma buildAction_error002 actionType ts payload meta :
  Built.error (Actions002.buildAction toJSON now actionType ts payload meta)
  = if Js.instanceofError payload then Some true else None.
Proof.
  unfold Actions002.buildAction. destruct (Js.truthy payload); reflexivity.
Qed.

End MoreActionCreators.

Ltac creators002 :=
  unfold Actions002.connect, Actions002.disconnect, Actions002.send,
    Actions002.beginReconnect, Actions002.reconnectAttempt,
    Actions002.reconnected, Actions002.open, Actions002.broken,
    Actions002.closed, Actions002.message, Actions002.error.

(** X1: every action creator stamps the action with the clock value read at
    build time, as a Date when the timestamp flag is false and as its JSON
    text when it is true; [meta] holds nothing else, except for [error],
    whose [meta] also carries the error's message and name and the original
    action, after the timestamp. *)
Theorem X1_timestamp :
  forall (K : ActionTypes) (toJSON : Z -> string) (now : Z) (ts : bool)
         (p : option string),
    let plain := [("timestamp", stamp toJSON now ts)] in
    (forall u args,
        Built.meta (Actions002.connect K toJSON now u ts args) = plain)
    /\ Built.meta (Actions002.disconnect K toJSON now ts p) = plain
    /\ (forall msg, Built.meta (Actions002.send K toJSON now msg ts p) = plain)
    /\ Built.meta (Actions002.beginReconnect K toJSON now ts p) = plain
    /\ (forall n,
        Built.meta (Actions002.reconnectAttempt K toJSON now n ts p) = plain)
    /\ Built.meta (Actions002.reconnected K toJSON now ts p) = plain
    /\ (forall ev, Built.meta (Actions002.open K toJSON now ev ts p) = plain)
    /\ Built.meta (Actions002.broken K toJSON now ts p) = plain
    /\ (forall ev, Built.meta (Actions002.closed K toJSON now ev ts p) = plain)
    /\ (forall ev,
        Built.meta (Actions002.message K toJSON now ev ts p) = plain)
    /\ (forall orig err,
        Built.meta (Actions002.error K toJSON now orig err ts p)
        = [("timestamp", stamp toJSON now ts);
           ("message", Js.get "message" err);
           ("name", Js.get "name" err);
           ("originalAction", orig)]).
Proof.
  intros K toJSON now ts p plain. subst plain.
  repeat split; intros; creators002;
    try (destruct args; cbn [Actions002.args_length Actions002.isProtocols
                              Z.eqb Pos.eqb]);
    rewrite buildAction_meta002; reflexivity.
Qed.

(** X2: disconnect, beginReconnect, reconnected and broken build actions with
    neither a [payload] nor an [error] key; send, open and closed, which read
    no property of their argument, keep it as [payload] only when it is truthy
    (a message 0, false, null, undefined or the empty text is dropped) and set
    [error: true] exactly when it is an Error; error, given an Error, carries
    it as [payload] with [error: true]; reconnectAttempt always carries its
    count object, also for count 0, and message, given an event object, always
    carries the object made of the event, its [data] and its [origin]. *)
Theorem X2_payload_and_error_keys :
  forall (K : ActionTypes) (toJSON : Z -> string) (now : Z) (ts : bool)
         (p : option string),
    let bare (a : BuiltAction) :=
      Built.payload a = None /\ Built.error a = None in
    let carries (v : Js.Value) (a : BuiltAction) :=
      Built.payload a = (if Js.truthy v then Some v else None)
      /\ Built.error a = (if Js.instanceofError v then Some true else None) in
    bare (Actions002.disconnect K toJSON now ts p)
    /\ bare (Actions002.beginReconnect K toJSON now ts p)
    /\ bare (Actions002.reconnected K toJSON now ts p)
    /\ bare (Actions002.broken K toJSON now ts p)
    /\ (forall msg, carries msg (Actions002.send K toJSON now msg ts p))
    /\ (forall ev, carries ev (Actions002.open K toJSON now ev ts p))
    /\ (forall ev, carries ev (Actions002.closed K toJSON now ev ts p))
    /\ (forall orig name text,
        let a :=
          Actions002.error K toJSON now orig (Js.Err name text) ts p in
        Built.payload a = Some (Js.Err name text)
        /\ Built.error a = Some true)
    /\ (forall n,
        let a := Actions002.reconnectAttempt K toJSON now n ts p in
        Built.payload a = Some (Js.Obj [("count", Js.Num n)])
        /\ Built.error a = None)
    /\ (forall fields,
        let ev := Js.Obj fields in
        let a := Actions002.message K toJSON now ev ts p in
        Built.payload a
        = Some (Js.Obj [("event", ev); ("message", Js.lookup "data" fields);
                        ("origin", Js.lookup "origin" fields)])
        /\ Built.error a = None).
Proof.
  intros K toJSON now ts p bare carries. subst bare carries. cbv beta zeta.
  repeat split; intros; creators002;
    rewrite ?buildAction_payload002, ?buildAction_error002; reflexivity.
Qed.

(** X3: [connect] reads a single rest argument as the protocol list when it is
    an array and as the prefix when it is a string, and two rest arguments as
    protocols then prefix; an empty prefix falls back to the default one; the
    payload always has the keys [url] and [protocols], the latter undefined
    when no protocols were given. *)
Theorem X3_connect_rest_arguments :
  forall (K : ActionTypes) (toJSON : Z -> string) (now : Z) (u : string)
         (ts : bool),
    let built (prefix : string) (protocols : Js.Value) : BuiltAction :=
      {| Built.type := (prefix ++ "::" ++ WEBSOCKET_CONNECT K)%string;
         Built.meta := [("timestamp", stamp toJSON now ts)];
         Built.error := None;
         Built.payload :=
           Some (Js.Obj [("url", Js.Str u); ("protocols", protocols)]) |} in
    let chosen (p : string) : string :=
      if String.eqb p "" then DEFAULT_PREFIX K else p in
    Actions002.connect K toJSON now u ts NoRest
    = built (DEFAULT_PREFIX K) Js.Undefined
    /\ (forall p,
        Actions002.connect K toJSON now u ts (WithPrefix p)
        = built (chosen p) Js.Undefined)
    /\ (forall ps,
        Actions002.connect K toJSON now u ts (WithProtocols ps)
        = built (DEFAULT_PREFIX K) (Js.Arr (map Js.Str ps)))
    /\ (forall ps p,
        Actions002.connect K toJSON now u ts (WithProtocolsAndPrefix ps p)
        = built (chosen p) (Js.Arr (map Js.Str ps))).
Proof.
  intros K toJSON now u ts built chosen. subst built chosen. cbv beta.
  repeat split; intros; unfold Actions002.connect, Actions002.buildAction,
    stamp, Js.orElse; cbn; try destruct (String.eqb p ""); destruct ts;
    reflexivity.
Qed.

(** X4: for one and the same creator, two actions have the same type exactly
    when their effective prefixes are the same text: the given prefix or the
    default one for connect, disconnect and send, and the prefix as written
    into the template for the library-dispatched creators (so an omitted
    prefix coincides with the prefix [undefined] and with no other). *)
Theorem X4_prefix_separates_types :
  forall (K : ActionTypes) (toJSON : Z -> string) (now : Z)
         (ts1 ts2 : bool) (p1 p2 : option string),
    let user (p : option string) := Js.orElse p (DEFAULT_PREFIX K) in
    let lib (p : option string) := Js.template p in
    let same (a b : BuiltAction) := Built.type a = Built.type b in
    (forall u1 u2 ps1 ps2 q1 q2,
        same (Actions002.connect K toJSON now u1 ts1
                (WithProtocolsAndPrefix ps1 q1))
             (Actions002.connect K toJSON now u2 ts2
                (WithProtocolsAndPrefix ps2 q2))
        <-> user (Some q1) = user (Some q2))
    /\ (same (Actions002.disconnect K toJSON now ts1 p1)
             (Actions002.disconnect K toJSON now ts2 p2)
        <-> user p1 = user p2)
    /\ (forall m1 m2,
        same (Actions002.send K toJSON now m1 ts1 p1)
             (Actions002.send K toJSON now m2 ts2 p2)
        <-> user p1 = user p2)
    /\ (same (Actions002.beginReconnect K toJSON now ts1 p1)
             (Actions002.beginReconnect K toJSON now ts2 p2)
        <-> lib p1 = lib p2)
    /\ (forall n1 n2,
        same (Actions002.reconnectAttempt K toJSON now n1 ts1 p1)
             (Actions002.reconnectAttempt K toJSON now n2 ts2 p2)
        <-> lib p1 = lib p2)
    /\ (same (Actions002.reconnected K toJSON now ts1 p1)
             (Actions002.reconnected K toJSON now ts2 p2)
        <-> lib p1 = lib p2)
    /\ (forall e1 e2,
        same (Actions002.open K toJSON now e1 ts1 p1)
             (Actions002.open K toJSON now e2 ts2 p2)
        <-> lib p1 = lib p2)
    /\ (same (Actions002.broken K toJSON now ts1 p1)
             (Actions002.broken K toJSON now ts2 p2)
        <-> lib p1 = lib p2)
    /\ (forall e1 e2,
        same (Actions002.closed K toJSON now e1 ts1 p1)
             (Actions002.closed K toJSON now e2 ts2 p2)
        <-> lib p1 = lib p2)
    /\ (forall e1 e2,
        same (Actions002.message K toJSON now e1 ts1 p1)
             (Actions002.message K toJSON now e2 ts2 p2)
        <-> lib p1 = lib p2)
    /\ (forall o1 o2 e1 e2,
        same (Actions002.error K toJSON now o1 e1 ts1 p1)
             (Actions002.error K toJSON now o2 e2 ts2 p2)
        <-> lib p1 = lib p2).
Proof.
  intros K toJSON now ts1 ts2 p1 p2 user lib same. subst user lib same.
  cbv beta.
  repeat match goal with |- _ /\ _ => split end; intros;
    rewrite ?connect_type002; creators002; rewrite ?buildAction_type002;
    (split; intros H; [eapply string_append_cancel_r; exact H
                      | rewrite H; reflexivity]).
Qed.

Ltac unfold_step w :=
  lazymatch goal with
  | |- context [step (Cmd_connect ?p) w] =>
      change (step (Cmd_connect p) w) with (connect p w);
      rewrite connect_eq, close_eq
  | |- context [step Cmd_disconnect w] =>
      change (step Cmd_disconnect w) with (disconnect w)
  | |- context [step (Native_open ?s ?e) w] =>
      rewrite step_open_eq, handleOpen_eq
  | |- context [step (Native_close ?s ?e) w] =>
      let E := fresh in
      pose proof (step_close_eq s e w) as E; cbv zeta in E; rewrite E; clear E
  | |- context [step Timer_retry w] =>
      change (step Timer_retry w) with (onRetryTimer w);
      rewrite onRetryTimer_eq; cbv zeta;
      destruct (Retry.retryTimer (retrier (this w))) eqn:?;
      [destruct (Retry.fn (retrier (this w))) eqn:?;
       [rewrite reliablyConnect_eq|]|]
  | |- context [step Timer_attemptTimeout w] =>
      change (step Timer_attemptTimeout w) with (onAttemptTimer w);
      rewrite onAttemptTimer_eq
  | _ => idtac
  end.

Ltac break_if :=
  repeat match goal with
         | |- context [if ?c then _ else _] => destruct c eqn:?
         | |- context [match ?c with Some _ => _ | None => _ end] =>
             destruct c eqn:?
         end.

Ltac step_cases i w :=
  destruct i; unfold_step w; open_world w; unfold announcement;
  cbn -[Retry.retry Z.sub Z.eqb] in *;
  repeat (progress (break_if; cbn -[Retry.retry Z.sub Z.eqb] in * )).

Lemma step_options w i : options (this (world (step i w))) = options (this w).
Proof. step_cases i w; reflexivity. Qed.

Lemma step_prefixes w i :
  Forall (fun n => prefix_of n = prefix (options (this w)))
    (notifications (effects (step i w))).
Proof. step_cases i w; repeat constructor. Qed.

Lemma step_targets w i :
  Forall (fun e => match socket_target e with
                   | Some sock => websocket (this w) = Some sock
                   | None => True
                   end)
    (effects (step i w)).
Proof. step_cases i w; repeat constructor. Qed.

Lemma run_options inputs : forall w,
  options (this (fst (run w inputs))) = options (this w).
Proof.
  induction inputs as [|i rest IH]; intros w; [reflexivity|].
  rewrite run_cons. cbn [fst]. rewrite IH. apply step_options.
Qed.

(** X5: no input ever changes the options of the manager, and every
    notification dispatched in a run carries the configured prefix. *)
Theorem X5_prefix_is_fixed :
  forall (w : World) (inputs : list Input),
    options (this (fst (run w inputs))) = options (this w)
    /\ Forall (fun n => prefix_of n = prefix (options (this w)))
         (notifications (snd (run w inputs))).
Proof.
  intros w inputs. split; [apply run_options|].
  revert w. induction inputs as [|i rest IH]; intros w; [constructor|].
  rewrite run_cons. cbn [snd]. rewrite notifications_app.
  apply List.Forall_app. split; [apply step_prefixes|].
  specialize (IH (world (step i w))). rewrite step_options in IH. exact IH.
Qed.

(** X6: whatever the input and the state, every [close] and [send] call on a
    socket and every call of the raw-socket hook is made on the socket the
    manager holds when the input arrives; sockets it has let go of are never
    touched. *)
Theorem X6_socket_operations_target_held_socket :
  forall (w : World) (i : Input),
    Forall (fun e => match socket_target e with
                     | Some sock => websocket (this w) = Some sock
                     | None => True
                     end)
      (effects (step i w)).
Proof.
  intros w i. step_cases i w; repeat constructor.
Qed.

Lemma step_held_valid w i : held_valid w -> held_valid (world (step i w)).
Proof.
  unfold held_valid. intros H.
  step_cases i w; subst; cbn in H;
    rewrite ?length_app, ?length_alter; cbn [length]; try exact I;
    try lia; try congruence.
Qed.

Lemma run_held_valid inputs : forall w,
  held_valid w -> held_valid (fst (run w inputs)).
Proof.
  induction inputs as [|i rest IH]; intros w H; [exact H|].
  rewrite run_cons. cbn [fst]. apply IH, step_held_valid, H.
Qed.

(** X7: in every state a run can reach from a new manager, a connect command
    first closes the held socket, if any, with code 1000 and the default
    reason, then resets the retrier and makes the first attempt, which
    constructs a socket that is none of the earlier ones, holds it in state
    CONNECTING, and dispatches no notification. *)
Theorem X7_connect_replaces_held_socket :
  forall (o : ReduxWebSocketOptions) (inputs : list Input)
         (payload : ConnectPayload),
    let w := fst (run (boot o) inputs) in
    let fresh := length (sockets w) in
    let r := connect payload w in
    effects r
    = [ConsoleLog "Top of connect"]
      ++ match websocket (this w) with
         | Some old =>
             [Retrier_stop;
              SocketClose old 1000
                "WebSocket connection closed by redux-websocket.";
              Assign_websocket None; Assign_hasOpened false]
         | None => []
         end
      ++ [Retrier_reset; Retrier_attempt 3000;
          NewWebSocket fresh (url payload) (protocols payload);
          Assign_websocket (Some fresh)]
    /\ websocket (this w) <> Some fresh
    /\ websocket (this (world r)) = Some fresh
    /\ sockets (world r) !! fresh = Some CONNECTING
    /\ completion r = Normal tt.
Proof.
  intros o inputs payload w fresh r.
  assert (Hv : held_valid w) by (apply run_held_valid; exact I).
  subst r fresh. rewrite connect_eq, close_eq. unfold held_valid in Hv.
  destruct w as [[o' ws rc ho rt] socks]. cbn in *.
  destruct ws as [old|]; cbn.
  - rewrite length_alter.
    repeat match goal with |- _ /\ _ => split end; try reflexivity.
    + intros E. injection E as E. lia.
    + rewrite lookup_app_r by (rewrite length_alter; lia).
      rewrite length_alter, Nat.sub_diag. reflexivity.
  - repeat match goal with |- _ /\ _ => split end; try reflexivity.
    + discriminate.
    + rewrite lookup_app_r by lia. rewrite Nat.sub_diag. reflexivity.
Qed.

Lemma step_hasOpened w i :
  hasOpened (this (world (step i w)))
  = match i with
    | Native_open _ _ => true
    | Cmd_connect _ | Cmd_disconnect =>
        match websocket (this w) with
        | Some _ => false
        | None => hasOpened (this w)
        end
    | _ => hasOpened (this w)
    end.
Proof. step_cases i w; reflexivity. Qed.

Lemma open_notifications sock event w :
  notifications (effects (step (Native_open sock event) w))
  = (if hasOpened (this w)
     then [reconnected (prefix (options (this w)))]
     else [])
    ++ [open event (prefix (options (this w)))].
Proof.
  rewrite step_open_eq, handleOpen_eq. open_world w. cbn.
  destruct ho, (onOpen o), ws; reflexivity.
Qed.

Lemma run_keeps_opened inputs : forall w,
  hasOpened (this w) = true ->
  forallb (fun i => negb (deliberate i)) inputs = true ->
  hasOpened (this (fst (run w inputs))) = true.
Proof.
  induction inputs as [|i rest IH]; intros w Hw Hin; [exact Hw|].
  cbn [forallb] in Hin. apply andb_prop in Hin as [Hi Hrest].
  rewrite run_cons. cbn [fst]. apply IH; [| exact Hrest].
  rewrite step_hasOpened. destruct i; try discriminate Hi; auto.
Qed.

Lemma run_keeps_unopened inputs : forall w,
  hasOpened (this w) = false ->
  forallb (fun i => negb (is_open i)) inputs = true ->
  hasOpened (this (fst (run w inputs))) = false.
Proof.
  induction inputs as [|i rest IH]; intros w Hw Hin; [exact Hw|].
  cbn [forallb] in Hin. apply andb_prop in Hin as [Hi Hrest].
  rewrite run_cons. cbn [fst]. apply IH; [| exact Hrest].
  rewrite step_hasOpened.
  destruct i; try discriminate Hi; auto; destruct (websocket (this w)); auto.
Qed.

(** X8: once a connection has opened, whatever socket events and timer
    firings and sends follow, as long as no connect or disconnect command
    comes, the next open event dispatches RECONNECTED and then OPEN. *)
Theorem X8_reconnected_after_any_socket_close :
  forall (w : World) (inputs : list Input) (sock : WebSocket)
         (event : Js.Value),
    hasOpened (this w) = true ->
    forallb (fun i => negb (deliberate i)) inputs = true ->
    notifications
      (effects (step (Native_open sock event) (fst (run w inputs))))
    = [reconnected (prefix (options (this w)));
       open event (prefix (options (this w)))].
Proof.
  intros w inputs sock event Hw Hin.
  rewrite open_notifications, run_options.
  rewrite (run_keeps_opened inputs w Hw Hin). reflexivity.
Qed.

(** Connect, open, close of the socket, retry, open of the new socket. *)
Lemma X8_witness :
  let w := fst (run (boot demoOptions)
                  [Cmd_connect wssX; Native_open 0%nat Js.Null]) in
  let inputs := [Native_close 0%nat refused; Timer_retry] in
  feasible w (inputs ++ [Native_open 1%nat Js.Null]) = true
  /\ notifications
       (effects (step (Native_open 1%nat Js.Null) (fst (run w inputs))))
     = [reconnected "REDUX_WEBSOCKET"; open Js.Null "REDUX_WEBSOCKET"].
Proof.
  split; [reflexivity|].
  exact (X8_reconnected_after_any_socket_close
           (fst (run (boot demoOptions)
                   [Cmd_connect wssX; Native_open 0%nat Js.Null]))
           [Native_close 0%nat refused; Timer_retry] 1%nat Js.Null
           eq_refl eq_refl).
Defined.

(** X9: after a disconnect command, or a connect command that replaces a held
    socket, the next open event dispatches OPEN alone, without RECONNECTED,
    whatever inputs other than open events come in between. *)
Theorem X9_no_reconnected_after_deliberate_close :
  forall (w : World) (i : Input) (inputs : list Input) (sock : WebSocket)
         (event : Js.Value),
    deliberate i = true ->
    websocket (this w) <> None ->
    forallb (fun i => negb (is_open i)) inputs = true ->
    notifications
      (effects (step (Native_open sock event)
                  (fst (run (world (step i w)) inputs))))
    = [open event (prefix (options (this w)))].
Proof.
  intros w i inputs sock event Hi Hheld Hin.
  rewrite open_notifications, run_options, step_options.
  rewrite (run_keeps_unopened inputs (world (step i w))); [reflexivity| |exact Hin].
  rewrite step_hasOpened.
  destruct i; try discriminate Hi; destruct (websocket (this w));
    congruence.
Qed.

(** An opened connection replaced by a new connect, which then opens. *)
Lemma X9_witness :
  let w := fst (run (boot demoOptions)
                  [Cmd_connect wssX; Native_open 0%nat Js.Null]) in
  hasOpened (this w) = true
  /\ notifications
       (effects (step (Native_open 1%nat Js.Null)
                   (fst (run (world (step (Cmd_connect wssX) w)) []))))
     = [open Js.Null "REDUX_WEBSOCKET"].
Proof.
  split; [reflexivity|].
  exact (X9_no_reconnected_after_deliberate_close
           (fst (run (boot demoOptions)
                   [Cmd_connect wssX; Native_open 0%nat Js.Null]))
           (Cmd_connect wssX) [] 1%nat Js.Null eq_refl
           (fun E => eq_ind (Some 0%nat)
                       (fun v => match v with Some _ => True | None => False end)
                       I None E)
           eq_refl).
Defined.

(** X10: error and message events of a socket only notify: a run of such
    events dispatches one ERROR (wrapping the generic error, with no original
    action) or one MESSAGE per event and leaves the manager, its retrier and
    the sockets exactly as they were; an error event alone never starts a
    reconnection. *)
Theorem X10_error_and_message_events_only_notify :
  forall (w : World) (inputs : list Input),
    forallb is_error_or_message inputs = true ->
    run w inputs
    = (w, flat_map (passive_effects (prefix (options (this w)))) inputs).
Proof.
  intros w inputs. induction inputs as [|i rest IH]; intros Hin;
    [reflexivity|].
  cbn [forallb] in Hin. apply andb_prop in Hin as [Hi Hrest].
  rewrite run_cons.
  assert (E : step i w
              = (Normal tt, w, passive_effects (prefix (options (this w))) i)).
  { destruct i; try discriminate Hi; open_world w; reflexivity. }
  rewrite E. cbn [world effects fst snd]. rewrite (IH Hrest). reflexivity.
Qed.

(** A message and an error on an open connection. *)
Lemma X10_witness :
  let w := fst (run (boot demoOptions)
                  [Cmd_connect wssX; Native_open 0%nat Js.Null]) in
  let inputs := [Native_message 0%nat (Js.Obj [("data", Js.Str "hi")]);
                 Native_error 0%nat] in
  feasible w inputs = true
  /\ run w inputs
     = (w, flat_map (passive_effects "REDUX_WEBSOCKET") inputs).
Proof.
  split; [reflexivity|].
  exact (X10_error_and_message_events_only_notify
           (fst (run (boot demoOptions)
                   [Cmd_connect wssX; Native_open 0%nat Js.Null]))
           [Native_message 0%nat (Js.Obj [("data", Js.Str "hi")]);
            Native_error 0%nat]
           eq_refl).
Defined.

(** X11: the internal [close] leaves no socket held, so a second [close] does
    nothing at all; a code of 0 and an empty reason fall back to 1000 and to
    the default reason like absent ones. *)
Theorem X11_close_is_idempotent :
  forall (w : World) (code : option Z) (why : option string),
    let r := close code why w in
    close code why (world r) = (Normal tt, world r, [])
    /\ websocket (this (world r)) = None
    /\ close (Some 0) (Some "") w = close None None w
    /\ effects r
       = match websocket (this w) with
         | Some sock =>
             [Retrier_stop;
              SocketClose sock
                (match code with
                 | Some c => if c =? 0 then 1000 else c
                 | None => 1000
                 end)
                (match why with
                 | Some s =>
                     if String.eqb s ""
                     then "WebSocket connection closed by redux-websocket."
                     else s
                 | None => "WebSocket connection closed by redux-websocket."
                 end);
              Assign_websocket None; Assign_hasOpened false]
         | None => []
         end.
Proof.
  intros w code why. open_world w.
  destruct ws as [sock|]; cbn; repeat split.
  destruct code as [c|], why as [s|]; cbn;
    try destruct (c =? 0); try destruct (String.eqb s ""); reflexivity.
Qed.

(** X12: a connect command constructs exactly one socket, the firing of a
    pending backoff timer with a stored connect callback constructs exactly
    one, and no other input (send, disconnect, a native open, close, error or
    message event, the attempt timeout) constructs any. *)
Theorem X12_sockets_are_constructed_by_connect_and_retry_only :
  forall (w : World) (i : Input),
    count is_NewWebSocket (effects (step i w)) = constructs w i
    /\ length (sockets (world (step i w)))
       = (length (sockets w) + constructs w i)%nat.
Proof.
  intros w i. unfold count, constructs.
  step_cases i w; rewrite ?length_app, ?length_alter; cbn; split;
    try reflexivity; try lia; try congruence.
Qed.

Lemma retry_stopped e r :
  Retry.state r = Retry.stopped -> Retry.retry e r = (false, r).
Proof. intros H. unfold Retry.retry. rewrite H. reflexivity. Qed.

Lemma halted_step w i :
  halted w -> quiet_input i = true ->
  halted (world (step i w))
  /\ count is_NewWebSocket (effects (step i w)) = 0%nat.
Proof.
  unfold halted, count. intros (Hs & Ht & Hw) Hi.
  destruct i; try discriminate Hi.
  - pose proof (step_close_eq sock event w) as E. cbv zeta in E. rewrite E.
    rewrite (retry_stopped _ _ Hs). open_world w. cbn in *. auto.
  - open_world w. cbn in *. auto.
  - open_world w. cbn in *. auto.
  - change (step Timer_retry w) with (onRetryTimer w).
    rewrite onRetryTimer_eq. cbv zeta. rewrite Ht. auto.
  - change (step Timer_attemptTimeout w) with (onAttemptTimer w).
    rewrite onAttemptTimer_eq. cbv zeta. rewrite Hw.
    destruct (Retry.attemptTimer _); open_world w; cbn in *; auto.
Qed.

Lemma halted_run inputs : forall w,
  halted w -> forallb quiet_input inputs = true ->
  halted (fst (run w inputs))
  /\ count is_NewWebSocket (snd (run w inputs)) = 0%nat.
Proof.
  induction inputs as [|i rest IH]; intros w Hw Hin; [split; [exact Hw|reflexivity]|].
  cbn [forallb] in Hin. apply andb_prop in Hin as [Hi Hrest].
  rewrite run_cons. cbn [fst snd]. rewrite count_app.
  destruct (halted_step w i Hw Hi) as [Hw1 Hc1].
  destruct (IH _ Hw1 Hrest) as [Hw2 Hc2].
  rewrite Hc1, Hc2. split; [exact Hw2 | reflexivity].
Qed.

Lemma step_sockets_length w i :
  length (sockets (world (step i w)))
  = (length (sockets w) + count is_NewWebSocket (effects (step i w)))%nat.
Proof.
  unfold count.
  step_cases i w; rewrite ?length_app, ?length_alter; cbn; lia.
Qed.

Lemma run_sockets_length inputs : forall w,
  length (sockets (fst (run w inputs)))
  = (length (sockets w) + count is_NewWebSocket (snd (run w inputs)))%nat.
Proof.
  induction inputs as [|i rest IH]; intros w; [cbn; lia|].
  rewrite run_cons. cbn [fst snd]. rewrite count_app, IH, step_sockets_length.
  lia.
Qed.

(** X13: after a disconnect command that found a socket, close, error and
    message events and timer firings never make the manager construct or hold
    a socket again: the retrier was stopped before the socket was closed, so
    the close event of that socket schedules nothing. *)
Theorem X13_no_reconnect_after_disconnect :
  forall (w : World) (inputs : list Input),
    websocket (this w) <> None ->
    forallb quiet_input inputs = true ->
    let r := run (world (step Cmd_disconnect w)) inputs in
    count is_NewWebSocket (snd r) = 0%nat
    /\ websocket (this (fst r)) = None
    /\ length (sockets (fst r)) = length (sockets w).
Proof.
  intros w inputs Hheld Hin r.
  assert (Hh : halted (world (step Cmd_disconnect w))).
  { change (step Cmd_disconnect w) with (disconnect w).
    open_world w. cbn in Hheld. destruct ws; [|congruence].
    cbn. repeat split. }
  destruct (halted_run inputs _ Hh Hin) as [(_ & _ & Hws) Hc].
  subst r. split; [exact Hc | split; [exact Hws |]].
  rewrite run_sockets_length, Hc, step_sockets_length.
  change (step Cmd_disconnect w) with (disconnect w).
  open_world w. cbn in Hheld. destruct ws; [|congruence]. cbn. lia.
Qed.

(** An opened connection, disconnected; its close event and the timers. *)
Lemma X13_witness :
  let w := fst (run (boot demoOptions)
                  [Cmd_connect wssX; Native_open 0%nat Js.Null]) in
  let inputs := [Native_close 0%nat refused; Timer_retry;
                 Timer_attemptTimeout] in
  feasible w [Cmd_disconnect; Native_close 0%nat refused] = true
  /\ count is_NewWebSocket
       (snd (run (world (step Cmd_disconnect w)) inputs)) = 0%nat
  /\ websocket (this (fst (run (world (step Cmd_disconnect w)) inputs)))
     = None
  /\ length (sockets (fst (run (world (step Cmd_disconnect w)) inputs)))
     = length (sockets w).
Proof.
  split; [reflexivity|].
  exact (X13_no_reconnect_after_disconnect
           (fst (run (boot demoOptions)
                   [Cmd_connect wssX; Native_open 0%nat Js.Null]))
           [Native_close 0%nat refused; Timer_retry; Timer_attemptTimeout]
           (fun E => eq_ind (Some 0%nat)
                       (fun v => match v with Some _ => True | None => False end)
                       I None E)
           eq_refl).
Defined.

(** ** The disconnect command and what its close leads to *)





